(** * CC1310_Flasher: a shallow embedding of the serial bootloader (SBL) layer

    This development models [src/sbl.c] (framing, ACK handshake, command
    codec and [sbl_program_binary]) on top of the transport interface of
    [src/serial.c], and proves properties of the model.

    Transport model.  The serial port is a record holding
    - [inp]: the events the device line will deliver to successive calls of
      [serial_read_timeout]: a read error (with its errno), a poll timeout, or
      one byte.  A read returns at most one byte, which is one of the
      behaviours [read(2)] may exhibit; an exhausted stream is an idle line on
      which every poll times out;
    - [wlog]: the list of [serial_write_all] calls, one element per call, in
      order (writes are modelled as always succeeding);
    - [errno]: the C [errno] variable.
    Printing to stdout/stderr is not modelled. *)

From Stdlib Require Import String Ascii.
From Stdlib Require Import ZArith List Bool Lia.
Import ListNotations.
Open Scope Z_scope.

(** ** Constants of [sbl.h] and the errno values of Linux *)

Definition SBL_ACK : Z := 204.   (* 0xCC *)
Definition SBL_NACK : Z := 51.   (* 0x33 *)

Definition CMD_PING : Z := 32.          (* 0x20 *)
Definition CMD_DOWNLOAD : Z := 33.      (* 0x21 *)
Definition CMD_GET_STATUS : Z := 35.    (* 0x23 *)
Definition CMD_SEND_DATA : Z := 36.     (* 0x24 *)
Definition CMD_RESET : Z := 37.         (* 0x25 *)
Definition CMD_SECTOR_ERASE : Z := 38.  (* 0x26 *)
Definition CMD_CRC32 : Z := 39.         (* 0x27 *)
Definition CMD_GET_CHIP_ID : Z := 40.   (* 0x28 *)

Definition COMMAND_RET_SUCCESS : Z := 64.     (* 0x40 *)
Definition COMMAND_RET_FLASH_FAIL : Z := 68.  (* 0x44 *)

Definition EINVAL : Z := 22.
Definition EPROTO : Z := 71.
Definition EMSGSIZE : Z := 90.
Definition ETIMEDOUT : Z := 110.

Definition U32 : Z := 2 ^ 32.
Definition U64 : Z := 2 ^ 64.   (* size_t *)

(** ** The transport *)

Inductive rd_event : Type :=
| EvErr (e : Z)     (* poll/read fails, setting errno to [e] *)
| EvTimeout         (* poll times out *)
| EvByte (b : Z).   (* one byte is available *)

Record port : Type := mkPort {
  inp : list rd_event;
  wlog : list (list Z);
  errno : Z
}.

(** A small state monad over the port. *)
Definition M (A : Type) : Type := port -> A * port.

Definition ret {A} (a : A) : M A := fun p => (a, p).
Definition bind {A B} (m : M A) (f : A -> M B) : M B :=
  fun p => let (a, p') := m p in f a p'.

Notation "x <- m ;; k" := (bind m (fun x => k))
  (at level 61, m at next level, right associativity).
Notation "' pat <- m ;; k" := (bind m (fun x => match x with pat => k end))
  (at level 61, pat pattern, m at next level, right associativity).

Definition set_errno (e : Z) : M unit :=
  fun p => (tt, mkPort (inp p) (wlog p) e).

(** [serial_read_timeout(fd, buf, len, timeout_ms)]: returns the count and
    the bytes read.  With [len = 0], poll reports data but [read] returns 0. *)
Definition serial_read_timeout (len : Z) (timeout_ms : Z) : M (Z * list Z) :=
  fun p =>
    match inp p with
    | [] => ((0, []), p)
    | EvTimeout :: r => ((0, []), mkPort r (wlog p) (errno p))
    | EvErr e :: r => ((-1, []), mkPort r (wlog p) e)
    | EvByte b :: r =>
        if len <=? 0 then ((0, []), p)
        else ((1, [b]), mkPort r (wlog p) (errno p))
    end.

(** [serial_write_all(fd, buf, len)]: one call, recorded whole.  The model
    covers the runs in which every [write] and the [tcdrain] succeed; the
    -1 returns of [write() < 0] and [tcdrain() < 0] are outside it. *)
Definition serial_write_all (buf : list Z) : M Z :=
  fun p => (Z.of_nat (length buf), mkPort (inp p) (wlog p ++ [buf]) (errno p)).

(** ** [read_exact_timeout]

    [k] is [len - got]; each successful read of the model delivers one
    byte, so [got] grows by one per iteration. *)
Fixpoint read_exact_timeout (k : nat) (timeout_ms : Z) : M (Z * list Z) :=
  match k with
  | O => ret (1, [])
  | S k' =>
      '(n, bs) <- serial_read_timeout (Z.of_nat k) timeout_ms ;;
      if n <? 0 then ret (-1, [])
      else if n =? 0 then ret (0, [])
      else '(r, rest) <- read_exact_timeout k' timeout_ms ;;
           ret (r, bs ++ rest)
  end.

(** ** [sbl_wait_ack]

    The [while (waited < timeout_ms)] loop; [fuel] bounds the number of
    iterations (the top-level call gives more than the loop can take). *)
Fixpoint wait_ack_loop (fuel : nat) (waited timeout_ms : Z) : M Z :=
  match fuel with
  | O => _ <- set_errno ETIMEDOUT ;; ret (-1)
  | S fuel' =>
      if waited <? timeout_ms then
        '(n, bs) <- serial_read_timeout 1 20 ;;
        if n <? 0 then ret (-1)
        else
          let continue := wait_ack_loop fuel' (waited + 20) timeout_ms in
          if n =? 1 then
            match bs with
            | b :: _ =>
                if b =? SBL_ACK then ret 0
                else if b =? SBL_NACK then (_ <- set_errno EPROTO ;; ret (-1))
                else continue
            | [] => continue
            end
          else continue
      else (_ <- set_errno ETIMEDOUT ;; ret (-1))
  end.

Definition sbl_wait_ack (timeout_ms : Z) : M Z :=
  wait_ack_loop (S (Z.to_nat timeout_ms)) 0 timeout_ms.

(** ** [checksum_sum]: [unsigned] accumulator, low byte returned. *)
Definition checksum_sum (data : list Z) : Z :=
  Z.land (fold_left (fun s b => (s + b) mod U32) data 0) 255.

(** ** [sbl_send_cmd]

    The response buffer [out] is non-NULL exactly when [out_max > 0] at
    every call site.  Returns the C return value and the bytes stored in
    [out]. *)
Definition sbl_send_cmd (data : list Z) (out_max timeout_ms : Z) : M (Z * list Z) :=
  let len := Z.of_nat (length data) in
  if (len =? 0) || (len >? 253) then (_ <- set_errno EINVAL ;; ret (-1, []))
  else
    let size := (len + 2) mod 256 in
    let csum := checksum_sum data in
    w <- serial_write_all (size :: csum :: data) ;;
    if w <? 0 then ret (-1, [])
    else
      a <- sbl_wait_ack timeout_ms ;;
      if negb (a =? 0) then ret (-1, [])
      else if out_max =? 0 then ret (0, [])
      else
        '(r, szb) <- read_exact_timeout 1 50 ;;
        let sz := hd 0 szb in
        if (r >? 0) && negb (sz =? 0) then
          '(r2, csb) <- read_exact_timeout 1 timeout_ms ;;
          if r2 <=? 0 then ret (-1, [])
          else
            let rx_csum := hd 0 csb in
            let payload_len := (sz - 2) mod U64 in
            if payload_len >? out_max then (_ <- set_errno EMSGSIZE ;; ret (-1, []))
            else
              '(r3, out) <- read_exact_timeout (Z.to_nat payload_len) timeout_ms ;;
              if r3 <=? 0 then ret (-1, [])
              else
                w2 <- serial_write_all [0; SBL_ACK] ;;
                if w2 <? 0 then ret (-1, [])
                else if negb (checksum_sum out =? rx_csum)
                then (_ <- set_errno EPROTO ;; ret (-1, []))
                else ret (payload_len, out)
        else ret (0, [])
.

(** ** Convenience commands *)

(** Big-endian 4-byte field, as written byte by byte by the command builders. *)
Definition be32 (x : Z) : list Z :=
  [Z.land (Z.shiftr x 24) 255; Z.land (Z.shiftr x 16) 255;
   Z.land (Z.shiftr x 8) 255; Z.land x 255].

Definition sbl_ping (timeout_ms : Z) : M Z :=
  '(r, _) <- sbl_send_cmd [CMD_PING] 0 timeout_ms ;; ret r.

(** [status_out] is the caller's variable: it is only written when exactly
    one response byte arrived. *)
Definition sbl_get_status (timeout_ms status_out : Z) : M (Z * Z) :=
  '(n, resp) <- sbl_send_cmd [CMD_GET_STATUS] 1 timeout_ms ;;
  if n <? 0 then ret (-1, status_out)
  else if n =? 1 then ret (0, hd 0 resp)
  else ret (0, status_out).

Definition sbl_get_chip_id (timeout_ms chip_id_out : Z) : M (Z * Z) :=
  '(n, resp) <- sbl_send_cmd [CMD_GET_CHIP_ID] 4 timeout_ms ;;
  if n <? 0 then ret (-1, chip_id_out)
  else if n =? 4 then
    (* Little-endian 32-bit *)
    ret (0, Z.lor (Z.lor (Z.lor (nth 0 resp 0)
                               (Z.shiftl (nth 1 resp 0) 8))
                        (Z.shiftl (nth 2 resp 0) 16))
                 (Z.shiftl (nth 3 resp 0) 24))
  else ret (0, chip_id_out).

Definition sbl_reset (timeout_ms : Z) : M Z :=
  '(r, _) <- sbl_send_cmd [CMD_RESET] 0 timeout_ms ;; ret r.

Definition sbl_download (addr total_len timeout_ms : Z) : M Z :=
  '(r, _) <- sbl_send_cmd (CMD_DOWNLOAD :: be32 addr ++ be32 total_len) 0 timeout_ms ;;
  ret r.

Definition sbl_sector_erase (addr timeout_ms : Z) : M Z :=
  '(r, _) <- sbl_send_cmd (CMD_SECTOR_ERASE :: be32 addr) 0 timeout_ms ;; ret r.

Definition sbl_send_data (chunk : list Z) (timeout_ms : Z) : M Z :=
  let n := Z.of_nat (length chunk) in
  if (n =? 0) || (n >? 252) then (_ <- set_errno EINVAL ;; ret (-1))
  else '(r, _) <- sbl_send_cmd (CMD_SEND_DATA :: chunk) 0 timeout_ms ;; ret r.

Definition sbl_crc32 (addr len repeat timeout_ms crc_out : Z) : M (Z * Z) :=
  '(n, resp) <- sbl_send_cmd (CMD_CRC32 :: be32 addr ++ be32 len ++ be32 repeat)
                             4 timeout_ms ;;
  if n <? 0 then ret (-1, crc_out)
  else if negb (n =? 4) then (_ <- set_errno EPROTO ;; ret (-1, crc_out))
  else
    ret (0, Z.lor (Z.lor (Z.lor (Z.shiftl (nth 0 resp 0) 24)
                               (Z.shiftl (nth 1 resp 0) 16))
                        (Z.shiftl (nth 2 resp 0) 8))
                 (nth 3 resp 0)).

(** ** [sbl_program_binary] *)

(** [erase_len = (image_len + page_size - 1) & ~(page_size - 1)]: the sum is
    computed in [size_t], the mask in [uint32_t] (zero-extended), and the
    result stored in a [uint32_t]. *)
Definition round_erase_len (page_size image_len : Z) : Z :=
  Z.land ((image_len + page_size - 1) mod U64)
         (Z.lnot ((page_size - 1) mod U32) mod U32) mod U32.

(** The CCFG cap, in [uint32_t] arithmetic. *)
Definition cap_erase_len (flash_size page_size base_addr erase_len : Z) : Z :=
  let last_page_start := (flash_size - page_size) mod U32 in
  if (base_addr + erase_len) mod U32 >? last_page_start
  then (last_page_start - base_addr) mod U32
  else erase_len.

Definition erase_len_of (flash_size page_size base_addr image_len : Z) : Z :=
  cap_erase_len flash_size page_size base_addr (round_erase_len page_size image_len).

(** The erase loop [for (a = base_addr; a < base_addr + erase_len; a += page_size)].
    [fuel] bounds the iterations; [sbl_program_binary] gives one more than the
    number of pending input events, and every completed iteration consumes the
    ACK of its SECTOR_ERASE. *)
Fixpoint erase_loop (fuel : nat) (a base_addr erase_len page_size : Z) : M Z :=
  match fuel with
  | O => ret (-1)
  | S fuel' =>
      if a <? (base_addr + erase_len) mod U32 then
        r <- sbl_sector_erase a 5000 ;;
        if negb (r =? 0) then ret (-1)
        else
          '(g, st) <- sbl_get_status 1000 0 ;;
          if negb (g =? 0) then ret (-1)
          else erase_loop fuel' ((a + page_size) mod U32) base_addr erase_len page_size
      else ret 0
  end.

(** [size_t remainder = image_len % 4; total_len = image_len (+ 4 - remainder)] *)
Definition total_len_of (image_len : Z) : Z :=
  let remainder := image_len mod 4 in
  if negb (remainder =? 0) then (image_len + (4 - remainder)) mod U64 else image_len.

(** The chunk buffer of one iteration of the transfer loop. *)
Definition chunk_buf (image : list Z) (image_len total_len off : Z) : list Z :=
  let chunk_len := if total_len - off >? 252 then 252 else total_len - off in
  let copy_len := if off + chunk_len >? image_len then (image_len - off) mod U64
                  else chunk_len in
  firstn (Z.to_nat copy_len) (skipn (Z.to_nat off) image)
    ++ repeat 255 (Z.to_nat (chunk_len - copy_len)).

(** The transfer loop [for (off = 0; off < total_len;)]; each iteration
    advances [off] by [chunk_len >= 1], so [total_len + 1] iterations are
    never exhausted.  Progress printing is not modelled. *)
Fixpoint transfer_loop (fuel : nat) (image : list Z) (image_len total_len off : Z) : M Z :=
  match fuel with
  | O => ret (-1)
  | S fuel' =>
      if off <? total_len then
        let chunk_len := if total_len - off >? 252 then 252 else total_len - off in
        let buf := chunk_buf image image_len total_len off in
        r <- sbl_send_data buf 1000 ;;
        if negb (r =? 0) then ret (-1)
        else
          '(g, st) <- sbl_get_status 500 0 ;;
          if negb (g =? 0) then ret (-1)
          else if negb (st =? 64) then ret (-1)
          else transfer_loop fuel' image image_len total_len (off + chunk_len)
      else ret 0
  end.

(** [None] is the undefined behaviour of [base_addr % page_size] with
    [page_size == 0]; otherwise [Some] of the C return value. *)
Definition sbl_program_binary (flash_size page_size : Z) (image : list Z)
    (base_addr : Z) : M (option Z) :=
  if page_size =? 0 then ret None
  else if negb (base_addr mod page_size =? 0) then ret (Some (-1))
  else
    let image_len := Z.of_nat (length image) in
    let erase_len := erase_len_of flash_size page_size base_addr image_len in
    fun p =>
    (e <- erase_loop (S (length (inp p))) base_addr base_addr erase_len page_size ;;
    if negb (e =? 0) then ret (Some (-1))
    else
      let total_len := total_len_of image_len in
      d <- sbl_download base_addr (total_len mod U32) 1000 ;;
      if negb (d =? 0) then ret (Some (-1))
      else
        '(g, st) <- sbl_get_status 500 0 ;;
        if negb (g =? 0) then ret (Some (-1))
        else if negb (st =? 64) then ret (Some (-1))
        else
          t <- transfer_loop (S (Z.to_nat total_len)) image image_len total_len 0 ;;
          if negb (t =? 0) then ret (Some (-1))
          else
            _ <- sbl_reset 1000 ;;
            ret (Some 0)) p.

(** ** [sbl_autobaud] *)

(** [serial_write_byte(fd, b)]: one [write] of one byte, then [tcdrain];
    recorded as one write of the log.  Like [serial_write_all], it covers
    the runs in which [write] and [tcdrain] succeed: the -1 returns of
    [write() < 0] and [tcdrain() < 0] are outside the model. *)
Definition serial_write_byte (b : Z) : M Z :=
  fun p => (1, mkPort (inp p) (wlog p ++ [[b]]) (errno p)).

(** The burst [for (i = 0; i < 2; ++i) if (serial_write_byte(fd, 0x55) != 1) return -1;]
    with [k] iterations left. *)
Fixpoint autobaud_burst (k : nat) : M Z :=
  match k with
  | O => ret 0
  | S k' =>
      w <- serial_write_byte 85 ;;
      if negb (w =? 1) then ret (-1) else autobaud_burst k'
  end.

(** The [while (elapsed < timeout_ms)] loop of [sbl_autobaud]; only [0xCC]
    ends it early, every other byte is ignored. *)
Fixpoint autobaud_loop (fuel : nat) (elapsed timeout_ms : Z) : M Z :=
  match fuel with
  | O => _ <- set_errno ETIMEDOUT ;; ret (-1)
  | S fuel' =>
      if elapsed <? timeout_ms then
        '(n, bs) <- serial_read_timeout 1 20 ;;
        if n <? 0 then ret (-1)
        else
          let continue := autobaud_loop fuel' (elapsed + 20) timeout_ms in
          if n =? 1 then
            match bs with
            | b :: _ => if b =? 204 then ret 0 else continue
            | [] => continue
            end
          else continue
      else (_ <- set_errno ETIMEDOUT ;; ret (-1))
  end.

Definition sbl_autobaud (timeout_ms : Z) : M Z :=
  w <- autobaud_burst 2 ;;
  if w <? 0 then ret (-1)
  else autobaud_loop (S (Z.to_nat timeout_ms)) 0 timeout_ms.

(** ** Opening the port and [sbl_autobaud_scan] *)

(** [baud_to_speed_t]: the [speed_t] codes of Linux's [<asm/termbits.h>],
    where every optional rate of the [#ifdef]s is defined; 0 otherwise. *)
Definition speed_table : list (Z * Z) :=
  [(50, 1); (75, 2); (110, 3); (134, 4); (150, 5); (200, 6); (300, 7); (600, 8);
   (1200, 9); (1800, 10); (2400, 11); (4800, 12); (9600, 13); (19200, 14);
   (38400, 15); (57600, 4097); (115200, 4098); (230400, 4099); (460800, 4100);
   (921600, 4103)].

Definition baud_to_speed_t (baud : Z) : Z :=
  match find (fun e => fst e =? baud) speed_table with
  | Some (_, s) => s
  | None => 0
  end.

(** The host: [open_line baud] is [None] when [open], [tcgetattr],
    [cfset*speed] or [tcsetattr] fails, and otherwise the device line as seen
    through a descriptor configured at [baud]; [bin_file path] is what
    [load_bin] reads from [path] ([None] when it returns NULL); [junk] is the
    indeterminate value of [main]'s uninitialised [uint8_t status];
    [malloc_ok] tells whether the [malloc] of [tx]'s buffer succeeds. *)
Record host : Type := mkHost {
  open_line : Z -> option port;
  bin_file : list Z -> option (list Z);
  junk : Z;
  malloc_ok : bool
}.

(** [serial_open_configure(dev_path, baud)] for the device of the host;
    [None] is the return value -1.  Each successful open is a line of its
    own: the effects of [tcsetattr] and [tcflush] on other descriptors open
    on the same tty are not modelled. *)
Definition serial_open_configure (h : host) (baud : Z) : option port :=
  match open_line h baud with
  | None => None
  | Some p => if baud_to_speed_t baud =? 0 then None else Some p
  end.

(** The [for (i = 0; i < n_bauds; ++i)] loop: open at [b], settle, run
    [sbl_autobaud] and close (the descriptor's line is dropped). *)
Fixpoint autobaud_scan_loop (h : host) (bauds : list Z) (timeout_ms baud_ok : Z) : Z * Z :=
  match bauds with
  | [] => (-1, baud_ok)
  | b :: rest =>
      match serial_open_configure h b with
      | None => autobaud_scan_loop h rest timeout_ms baud_ok
      | Some p =>
          let ok := fst (sbl_autobaud timeout_ms p) in
          if ok =? 0 then (0, b) else autobaud_scan_loop h rest timeout_ms baud_ok
      end
  end.

(** [sbl_autobaud_scan(dev_path, bauds, n_bauds, timeout_ms, &baud_ok)] with
    non-NULL pointers (as in [main]): the return value and the final
    [baud_ok].  An empty list is refused with [errno = EINVAL]. *)
Definition sbl_autobaud_scan (h : host) (bauds : list Z) (timeout_ms baud_ok : Z) : Z * Z :=
  match bauds with
  | [] => (-1, baud_ok)
  | _ => autobaud_scan_loop h bauds timeout_ms baud_ok
  end.

(** ** [main.c]: parsing the command line *)

(** A C string as its bytes ([argv] strings hold no NUL). *)
Definition cbytes (s : string) : list Z :=
  map (fun c => Z.of_nat (nat_of_ascii c)) (list_ascii_of_string s).

Definition isspace (c : Z) : bool := (c =? 32) || ((9 <=? c) && (c <=? 13)).

(** Value of a digit or letter for [strtoul]; 36 for any other byte. *)
Definition digit_value (c : Z) : Z :=
  if (48 <=? c) && (c <=? 57) then c - 48
  else if (97 <=? c) && (c <=? 122) then c - 87
  else if (65 <=? c) && (c <=? 90) then c - 55
  else 36.

Fixpoint count_spaces (s : list Z) : nat :=
  match s with
  | c :: r => if isspace c then S (count_spaces r) else O
  | [] => O
  end.

(** The digits of [base] at the front of [s]: their exact value, accumulated
    on [acc], and their number, added to [n]. *)
Fixpoint scan_digits (base : Z) (s : list Z) (acc : Z) (n : nat) : Z * nat :=
  match s with
  | c :: r =>
      if digit_value c <? base then scan_digits base r (acc * base + digit_value c) (S n)
      else (acc, n)
  | [] => (acc, n)
  end.

(** The scan shared by glibc's [strtoul] and [strtol] for base 0, 10 or 16:
    white space, an optional sign, the [0x]/[0X] prefix (base 0 or 16), a
    leading [0] selecting base 8 in base 0, then the digits.  Returns the
    sign, the exact value of the digits, and the index [*endptr] points at;
    with no digits the value is 0 and [*endptr] is [nptr], or the [x] of a
    [0x] prefix. *)
Definition strto_scan (s : list Z) (base : Z) : bool * Z * nat :=
  let ws := count_spaces s in
  let s1 := skipn ws s in
  let '(neg, s2, k1) :=
    match s1 with
    | c :: r => if c =? 45 then (true, r, 1%nat)
                else if c =? 43 then (false, r, 1%nat) else (false, s1, 0%nat)
    | [] => (false, s1, 0%nat)
    end in
  let '(b, s3, k2) :=
    match s2 with
    | c0 :: r0 =>
        if c0 =? 48 then
          match r0 with
          | c1 :: r1 =>
              if ((base =? 0) || (base =? 16)) && ((c1 =? 120) || (c1 =? 88))
              then (16, r1, 2%nat)
              else if base =? 0 then (8, s2, 0%nat) else (base, s2, 0%nat)
          | [] => if base =? 0 then (8, s2, 0%nat) else (base, s2, 0%nat)
          end
        else if base =? 0 then (10, s2, 0%nat) else (base, s2, 0%nat)
    | [] => if base =? 0 then (10, s2, 0%nat) else (base, s2, 0%nat)
    end in
  let '(v, nd) := scan_digits b s3 0 0 in
  if (nd =? 0)%nat then
    (false, 0, if (k2 =? 2)%nat then (ws + k1 + 1)%nat else 0%nat)
  else (neg, v, (ws + k1 + k2 + nd)%nat).

Definition ULONG_MAX : Z := U64 - 1.
Definition LONG_MAX : Z := 2 ^ 63 - 1.
Definition LONG_MIN : Z := - 2 ^ 63.

(** [strtoul(s, &end, base)]: the value and the index of [end]; an
    overflow gives [ULONG_MAX], a minus sign negates modulo 2^64. *)
Definition strtoul (s : list Z) (base : Z) : Z * nat :=
  let '(neg, v, e) := strto_scan s base in
  (if v >? ULONG_MAX then ULONG_MAX else if neg then (- v) mod U64 else v, e).

(** [strtol(s, &end, base)]: clamped to [[LONG_MIN, LONG_MAX]]. *)
Definition strtol (s : list Z) (base : Z) : Z * nat :=
  let '(neg, v, e) := strto_scan s base in
  (if neg then (if v >? - LONG_MIN then LONG_MIN else - v)
   else if v >? LONG_MAX then LONG_MAX else v, e).

(** glibc's [atoi]: [(int) strtol(nptr, NULL, 10)], narrowed modulo 2^32. *)
Definition atoi (s : list Z) : Z :=
  (fst (strtol s 10) + 2 ^ 31) mod 2 ^ 32 - 2 ^ 31.

(** [parse_byte(s, &out)] with non-NULL arguments: [Some v] is the return
    value 0 with [*out = v]. *)
Definition parse_byte (s : list Z) : option Z :=
  let (v, e) := strtoul s 0 in
  if (e =? 0)%nat || negb (e =? length s)%nat || (v >? 255) then None else Some v.

(** The parsing loop of [tx]: every argument through [parse_byte]. *)
Fixpoint parse_bytes (args : list (list Z)) : option (list Z) :=
  match args with
  | [] => Some []
  | a :: r =>
      match parse_byte a with
      | None => None
      | Some v => match parse_bytes r with
                  | None => None
                  | Some vs => Some (v :: vs)
                  end
      end
  end.

(** The parsing loop of [sbl_send_data]:
    [unsigned v = (unsigned)strtoul(argv[4 + i], NULL, 0); if (v > 255) ...]. *)
Fixpoint send_data_bytes (args : list (list Z)) : option (list Z) :=
  match args with
  | [] => Some []
  | a :: r =>
      let v := fst (strtoul a 0) mod U32 in
      if v >? 255 then None
      else match send_data_bytes r with
           | None => None
           | Some vs => Some (v :: vs)
           end
  end.

(** [(uint32_t)strtoul(s, NULL, 0)] *)
Definition arg_u32 (s : list Z) : Z := fst (strtoul s 0) mod U32.

Definition arg (argv : list string) (i : nat) : list Z := cbytes (nth i argv ""%string).

Definition try_bauds : list Z :=
  [115200; 921600; 460800; 230400; 57600; 38400; 19200; 9600].

(** The [sbl_full_erase] loop [for (a = 0; a < last_page_start; a += page_size)];
    each iteration that goes on consumed the ACK of its SECTOR_ERASE, so the
    fuel [main] gives is never exhausted. *)
Fixpoint full_erase_loop (h : host) (fuel : nat) (a last_page_start page_size : Z) : M Z :=
  match fuel with
  | O => ret 1
  | S fuel' =>
      if a <? last_page_start then
        r <- sbl_sector_erase a 2000 ;;
        if negb (r =? 0) then ret 1
        else
          '(_, status) <- sbl_get_status 500 (junk h) ;;
          if status =? 64
          then full_erase_loop h fuel' ((a + page_size) mod U32) last_page_start page_size
          else ret 1
      else ret 0
  end.

(** The subcommands of [main], run on the opened port: [Some rc] is the
    exit code, [None] the undefined behaviour of [sbl_program_binary] with
    [page_size == 0].  Printing is not modelled; the [malloc] of [tx] is the
    host's [malloc_ok], the one of [load_bin] is part of [bin_file]. *)
Definition main_command (h : host) (argv : list string) (cmd : string) : M (option Z) :=
  let argc := length argv in
  if String.eqb cmd "txbyte" then
    if negb (argc =? 5)%nat then ret (Some 1)
    else match parse_byte (arg argv 4) with
         | None => ret (Some 1)
         | Some v =>
             w <- serial_write_byte v ;;
             if negb (w =? 1) then ret (Some 3) else ret (Some 0)
         end
  else if String.eqb cmd "tx" then
    if (argc <? 5)%nat then ret (Some 1)
    else if negb (malloc_ok h) then ret (Some 4)
    else match parse_bytes (map cbytes (skipn 4 argv)) with
         | None => ret (Some 1)
         | Some buf =>
             n <- serial_write_all buf ;;
             if n <? 0 then ret (Some 3) else ret (Some 0)
         end
  else if String.eqb cmd "rx" then
    if negb (argc =? 5)%nat then ret (Some 1)
    else
      let t := atoi (arg argv 4) in
      let t := if t <? 0 then 0 else t in
      '(n, _) <- serial_read_timeout 256 t ;;
      if n <? 0 then ret (Some 5) else ret (Some 0)
  else if String.eqb cmd "sbl_autobaud" then
    r <- sbl_autobaud 500 ;;
    if negb (r =? 0) then ret (Some 1) else ret (Some 0)
  else if String.eqb cmd "sbl_autobaud_scan" then
    let (r, found) := sbl_autobaud_scan h try_bauds 500 0 in
    if negb (r =? 0) then ret (Some 1) else ret (Some 0)
  else if String.eqb cmd "sbl_ping" then
    r <- sbl_ping 500 ;;
    if negb (r =? 0) then ret (Some 1) else ret (Some 0)
  else if String.eqb cmd "sbl_status" then
    '(r, st) <- sbl_get_status 500 255 ;;
    if negb (r =? 0) then ret (Some 1) else ret (Some 0)
  else if String.eqb cmd "sbl_chipid" then
    '(r, id) <- sbl_get_chip_id 500 0 ;;
    if negb (r =? 0) then ret (Some 1) else ret (Some 0)
  else if String.eqb cmd "sbl_reset" then
    r <- sbl_reset 500 ;;
    if negb (r =? 0) then ret (Some 1) else ret (Some 0)
  else if String.eqb cmd "sbl_download" then
    if negb (argc =? 6)%nat then ret (Some 1)
    else
      let addr := arg_u32 (arg argv 4) in
      let len := arg_u32 (arg argv 5) in
      r <- sbl_download addr len 1000 ;;
      if negb (r =? 0) then ret (Some 1)
      else
        '(_, status) <- sbl_get_status 500 (junk h) ;;
        ret (Some 0)
  else if String.eqb cmd "sbl_erase" then
    if negb (argc =? 5)%nat then ret (Some 1)
    else
      let addr := arg_u32 (arg argv 4) in
      r <- sbl_sector_erase addr 2000 ;;
      if negb (r =? 0) then ret (Some 1)
      else
        '(_, status) <- sbl_get_status 500 (junk h) ;;
        ret (Some 0)
  else if String.eqb cmd "sbl_full_erase" then
    if negb (argc =? 6)%nat then ret (Some 1)
    else
      let flash_size := arg_u32 (arg argv 4) in
      let page_size := arg_u32 (arg argv 5) in
      let last_page_start := (flash_size - page_size) mod U32 in
      r <- (fun p => full_erase_loop h (S (length (inp p))) 0 last_page_start page_size p) ;;
      ret (Some r)
  else if String.eqb cmd "sbl_send_data" then
    if (argc <? 5)%nat then ret (Some 1)
    else
      let count := (argc - 4)%nat in
      if (252 <? count)%nat then ret (Some 1)
      else match send_data_bytes (map cbytes (skipn 4 argv)) with
           | None => ret (Some 1)
           | Some buf =>
               r <- sbl_send_data buf 1000 ;;
               if negb (r =? 0) then ret (Some 1) else ret (Some 0)
           end
  else if String.eqb cmd "sbl_crc" then
    if negb (argc =? 7)%nat then ret (Some 1)
    else
      let address := arg_u32 (arg argv 4) in
      let len := arg_u32 (arg argv 5) in
      let repeat := arg_u32 (arg argv 6) in
      '(r, crc_out) <- sbl_crc32 address len repeat 5000 0 ;;
      if negb (r =? 0) then ret (Some 1)
      else
        '(_, status) <- sbl_get_status 500 (junk h) ;;
        if status =? 64 then ret (Some 0) else ret (Some 1)
  else if String.eqb cmd "sbl_program" then
    if negb (argc =? 8)%nat then ret (Some 1)
    else
      let image := match bin_file h (arg argv 4) with Some img => img | None => [] end in
      let address := arg_u32 (arg argv 5) in
      let flash_size := arg_u32 (arg argv 6) in
      let page_size := arg_u32 (arg argv 7) in
      r <- sbl_program_binary flash_size page_size image address ;;
      match r with
      | None => ret None
      | Some _ => ret (Some 0)
      end
  else ret (Some 1).

(** [main(argc, argv)]: the exit code and the line of the opened port at
    exit ([None] when it was not opened); [None] for undefined behaviour. *)
Definition main (h : host) (argv : list string) : option (Z * option port) :=
  if (length argv <? 4)%nat then Some (1, None)
  else
    let baud := atoi (arg argv 2) in
    let cmd := nth 3 argv ""%string in
    match serial_open_configure h baud with
    | None => Some (2, None)
    | Some p =>
        match main_command h argv cmd p with
        | (None, _) => None
        | (Some rc, p') => Some (rc, Some p')
        end
    end.

(** ** Observations on the write log and statements from the spec *)

(** The tails (after the opcode) of the frames in a write log whose opcode
    byte (third byte, after SIZE and CHECKSUM) is [op]: the SEND_DATA chunks,
    the SECTOR_ERASE addresses, and so on.  A response acknowledgement
    [[0x00; 0xCC]] has no opcode byte. *)
Definition cmd_payloads (op : Z) (log : list (list Z)) : list (list Z) :=
  flat_map (fun w => match w with
                     | _ :: _ :: c :: rest => if c =? op then [rest] else []
                     | _ => []
                     end) log.

Definition sum_bytes (data : list Z) : Z := fold_right Z.add 0 data.

(** The wire frame of the spec: [[len(payload)+2, checksum(payload), payload...]]. *)
Definition spec_frame (payload : list Z) : list Z :=
  (Z.of_nat (length payload) + 2) :: sum_bytes payload mod 256 :: payload.

(** The handshake of the spec: slices of 20 ms until [timeout_ms] is used up;
    ACK succeeds, NACK is [Rejected], a read error is [IoError], anything
    else is discarded. *)
Inductive ack_outcome : Type :=
| Ack | Rejected | Timeout | IoError (e : Z).

Definition slices (timeout_ms : Z) : nat := Z.to_nat ((timeout_ms + 19) / 20).

Fixpoint ack_scan (n : nat) (evs : list rd_event) : ack_outcome * list rd_event :=
  match n with
  | O => (Timeout, evs)
  | S n' =>
      match evs with
      | [] => (Timeout, [])
      | EvErr e :: r => (IoError e, r)
      | EvTimeout :: r => ack_scan n' r
      | EvByte b :: r =>
          if b =? SBL_ACK then (Ack, r)
          else if b =? SBL_NACK then (Rejected, r)
          else ack_scan n' r
      end
  end.

(** C return value and errno of each outcome. *)
Definition outcome_ret (o : ack_outcome) (old_errno : Z) : Z * Z :=
  match o with
  | Ack => (0, old_errno)
  | Rejected => (-1, EPROTO)
  | Timeout => (-1, ETIMEDOUT)
  | IoError e => (-1, e)
  end.

Definition wait_ack_spec (timeout_ms : Z) (p : port) : Z * port :=
  let (o, rest) := ack_scan (slices timeout_ms) (inp p) in
  let (r, e) := outcome_ret o (errno p) in
  (r, mkPort rest (wlog p) e).

Definition round_up (x m : Z) : Z := (x + m - 1) / m * m.

Definition is_pow2 (m : Z) : Prop := exists k, 0 <= k /\ m = 2 ^ k.

(** Device scripts: the events a device answering every command produces. *)
Definition ack_ev : list rd_event := [EvByte SBL_ACK].

(** ACK of GET_STATUS, then the response frame [[3; s; s]]. *)
Definition status_ev (s : Z) : list rd_event :=
  [EvByte SBL_ACK; EvByte 3; EvByte s; EvByte s].

(** A device that answers [n_erase] SECTOR_ERASE/GET_STATUS pairs with the
    given statuses, then accepts DOWNLOAD and [n_chunks] SEND_DATA chunks
    and the final RESET. *)
Definition device_script (erase_status : list Z) (n_chunks : nat) : list rd_event :=
  flat_map (fun s => ack_ev ++ status_ev s) erase_status
  ++ ack_ev ++ status_ev COMMAND_RET_SUCCESS
  ++ concat (repeat (ack_ev ++ status_ev COMMAND_RET_SUCCESS) n_chunks)
  ++ ack_ev.

Definition fresh_port (evs : list rd_event) : port := mkPort evs [] 0.

(** The frame that [sbl_send_cmd] writes for a payload. *)
Definition code_frame (data : list Z) : list Z :=
  (Z.of_nat (length data) + 2) mod 256 :: checksum_sum data :: data.

(** The handshake of [sbl_autobaud]: as [ack_scan], except that [0x33] is
    noise like any byte other than [0xCC]. *)
Fixpoint ack_only_scan (n : nat) (evs : list rd_event) : ack_outcome * list rd_event :=
  match n with
  | O => (Timeout, evs)
  | S n' =>
      match evs with
      | [] => (Timeout, [])
      | EvErr e :: r => (IoError e, r)
      | EvTimeout :: r => ack_only_scan n' r
      | EvByte b :: r => if b =? SBL_ACK then (Ack, r) else ack_only_scan n' r
      end
  end.

(** Big-endian reading of a byte string. *)
Definition be_decode (bs : list Z) : Z := fold_left (fun acc b => acc * 256 + b) bs 0.

(** The [n] addresses [a], [a + step], [a + 2 step], ... *)
Fixpoint pages (n : nat) (a step : Z) : list Z :=
  match n with
  | O => []
  | S n' => a :: pages n' (a + step) step
  end.

(** Spellings of a value [0 <= n < 1000]: decimal without leading zeros,
    [0x%02X], [0x%02x] and [0%03o] for a byte. *)
Definition dec_spelling (n : Z) : list Z :=
  if n <? 10 then [48 + n]
  else if n <? 100 then [48 + n / 10; 48 + n mod 10]
  else [48 + n / 100; 48 + (n / 10) mod 10; 48 + n mod 10].

Definition hex_upper (d : Z) : Z := if d <? 10 then 48 + d else 55 + d.
Definition hex_lower (d : Z) : Z := if d <? 10 then 48 + d else 87 + d.

Definition hex_spelling_upper (n : Z) : list Z := [48; 120; hex_upper (n / 16); hex_upper (n mod 16)].
Definition hex_spelling_lower (n : Z) : list Z := [48; 120; hex_lower (n / 16); hex_lower (n mod 16)].
Definition oct_spelling (n : Z) : list Z := [48; 48 + n / 64; 48 + (n / 8) mod 8; 48 + n mod 8].

(** ** Reads leave the write log alone *)

Lemma read_timeout_wlog len t p :
  wlog (snd (serial_read_timeout len t p)) = wlog p.
Proof.
  unfold serial_read_timeout.
  destruct (inp p) as [|[e| |b] r]; simpl; auto.
  destruct (len <=? 0); reflexivity.
Qed.

Lemma read_exact_wlog k t p :
  wlog (snd (read_exact_timeout k t p)) = wlog p.
Proof.
  revert p; induction k as [|k IH]; intro p; [reflexivity|].
  cbn [read_exact_timeout]; unfold bind.
  pose proof (read_timeout_wlog (Z.of_nat (S k)) t p) as H0.
  destruct (serial_read_timeout (Z.of_nat (S k)) t p) as [[n bs] p1]; simpl in H0.
  destruct (n <? 0); [simpl; auto|].
  destruct (n =? 0); [simpl; auto|].
  pose proof (IH p1) as H1.
  destruct (read_exact_timeout k t p1) as [[r rest] p2]; simpl in *; congruence.
Qed.

Lemma wait_ack_loop_wlog fuel w t p :
  wlog (snd (wait_ack_loop fuel w t p)) = wlog p.
Proof.
  revert w p; induction fuel as [|fuel IH]; intros w p; simpl; auto.
  destruct (w <? t); [|simpl; auto].
  unfold bind.
  pose proof (read_timeout_wlog 1 20 p) as H0.
  destruct (serial_read_timeout 1 20 p) as [[n bs] p1]; simpl in H0.
  destruct (n <? 0); [simpl; auto|].
  destruct (n =? 1).
  - destruct bs as [|b bs]; [rewrite IH; auto|].
    destruct (b =? SBL_ACK); [simpl; auto|].
    destruct (b =? SBL_NACK); [simpl; auto|].
    rewrite IH; auto.
  - rewrite IH; auto.
Qed.

Ltac ro_step :=
  match goal with
  | |- context [let (_, _) := read_exact_timeout ?k ?t ?p in _] =>
      let H := fresh "Hw" in
      pose proof (read_exact_wlog k t p) as H;
      destruct (read_exact_timeout k t p) as [[? ?] ?]; simpl in H
  | |- context [let (_, _) := sbl_wait_ack ?t ?p in _] =>
      let H := fresh "Hw" in
      pose proof (wait_ack_loop_wlog (S (Z.to_nat t)) 0 t p) as H;
      unfold sbl_wait_ack; destruct (wait_ack_loop (S (Z.to_nat t)) 0 t p) as [? ?];
      simpl in H
  | |- context [if ?b then _ else _] => destruct b
  end.

Lemma send_cmd_wlog data om t p :
  (1 <= length data <= 253)%nat ->
  exists acks, wlog (snd (sbl_send_cmd data om t p)) = wlog p ++ code_frame data :: acks
          /\ (acks = [] \/ acks = [[0; SBL_ACK]]).
Proof.
  intros H. unfold sbl_send_cmd.
  replace ((Z.of_nat (length data) =? 0) || (Z.of_nat (length data) >? 253)) with false
    by (symmetry; apply orb_false_iff; split; lia).
  unfold bind, serial_write_all. cbv beta.
  replace (Z.of_nat (length ((Z.of_nat (length data) + 2) mod 256 :: checksum_sum data :: data)) <? 0)
    with false by (symmetry; apply Z.ltb_ge; lia).
  repeat (ro_step; cbv beta iota).
  all: simpl; repeat match goal with H : wlog _ = _ |- _ => rewrite H; clear H end.
  all: first [ exists []; split; [rewrite ?app_nil_r; reflexivity | left; reflexivity]
             | exists [[0; SBL_ACK]]; split; [rewrite <- app_assoc; reflexivity | right; reflexivity]].
Qed.

(** ** Checksum and byte decoding *)

Lemma fold_checksum_mod data s :
  fold_left (fun s b => (s + b) mod U32) data s mod 256 = (s + sum_bytes data) mod 256.
Proof.
  revert s; induction data as [|b data IH]; intro s; simpl.
  - now rewrite Z.add_0_r.
  - rewrite IH.
    rewrite <- (Z.add_mod_idemp_l ((s + b) mod U32)) by lia.
    rewrite Z.mod_mod_divide by (exists (2 ^ 24); reflexivity).
    rewrite Z.add_mod_idemp_l by lia. f_equal; lia.
Qed.

Lemma checksum_sum_spec data : checksum_sum data = sum_bytes data mod 256.
Proof.
  unfold checksum_sum.
  change 255 with (Z.ones 8). rewrite Z.land_ones by lia.
  apply fold_checksum_mod.
Qed.

Lemma land_low_shiftl a b k :
  0 <= k -> 0 <= a < 2 ^ k -> Z.land a (Z.shiftl b k) = 0.
Proof.
  intros Hk Ha. apply Z.bits_inj'; intros i Hi.
  rewrite Z.land_spec, Z.bits_0.
  destruct (Z.lt_ge_cases i k).
  - rewrite Z.shiftl_spec_low by lia. apply andb_false_r.
  - rewrite <- (Z.mod_small a (2 ^ k)) by lia.
    rewrite Z.mod_pow2_bits_high by lia. reflexivity.
Qed.

Lemma lor_shiftl_add a b k :
  0 <= k -> 0 <= a < 2 ^ k -> Z.lor a (Z.shiftl b k) = a + b * 2 ^ k.
Proof.
  intros Hk Ha.
  rewrite <- Z.lxor_lor by (apply land_low_shiftl; lia).
  rewrite <- Z.add_nocarry_lxor by (apply land_low_shiftl; lia).
  rewrite Z.shiftl_mul_pow2 by lia. reflexivity.
Qed.

Lemma shiftl_lor_add a b k :
  0 <= k -> 0 <= a < 2 ^ k -> Z.lor (Z.shiftl b k) a = a + b * 2 ^ k.
Proof. intros. rewrite Z.lor_comm. now apply lor_shiftl_add. Qed.

Lemma decode_le b0 b1 b2 b3 :
  0 <= b0 < 256 -> 0 <= b1 < 256 -> 0 <= b2 < 256 -> 0 <= b3 < 256 ->
  Z.lor (Z.lor (Z.lor b0 (Z.shiftl b1 8)) (Z.shiftl b2 16)) (Z.shiftl b3 24)
  = b0 + b1 * 2 ^ 8 + b2 * 2 ^ 16 + b3 * 2 ^ 24.
Proof.
  intros. rewrite (lor_shiftl_add b0 b1 8) by (simpl; lia).
  rewrite (lor_shiftl_add (b0 + b1 * 2 ^ 8) b2 16) by (simpl; lia).
  rewrite lor_shiftl_add by (simpl; lia). reflexivity.
Qed.

Lemma decode_be b0 b1 b2 b3 :
  0 <= b0 < 256 -> 0 <= b1 < 256 -> 0 <= b2 < 256 -> 0 <= b3 < 256 ->
  Z.lor (Z.lor (Z.lor (Z.shiftl b0 24) (Z.shiftl b1 16)) (Z.shiftl b2 8)) b3
  = b0 * 2 ^ 24 + b1 * 2 ^ 16 + b2 * 2 ^ 8 + b3.
Proof.
  intros.
  replace (Z.shiftl b0 24) with (Z.shiftl (Z.shiftl b0 8) 16)
    by (rewrite Z.shiftl_shiftl by lia; reflexivity).
  rewrite <- Z.shiftl_lor, (shiftl_lor_add b1) by (simpl; lia).
  replace (Z.shiftl (b1 + b0 * 2 ^ 8) 16) with (Z.shiftl (Z.shiftl (b1 + b0 * 2 ^ 8) 8) 8)
    by (rewrite Z.shiftl_shiftl by lia; reflexivity).
  rewrite <- Z.shiftl_lor, (shiftl_lor_add b2) by (simpl; lia).
  rewrite (shiftl_lor_add b3) by (simpl; lia).
  simpl. lia.
Qed.

(** ** Running the handshake and the response path on a scripted line *)

Lemma wait_ack_first_ack t r w e :
  0 < t -> sbl_wait_ack t (mkPort (EvByte SBL_ACK :: r) w e) = (0, mkPort r w e).
Proof.
  intros Ht. unfold sbl_wait_ack. cbn [wait_ack_loop].
  replace (0 <? t) with true by (symmetry; apply Z.ltb_lt; lia).
  reflexivity.
Qed.

Lemma read_exact_one b t r w e :
  read_exact_timeout 1 t (mkPort (EvByte b :: r) w e) = ((1, [b]), mkPort r w e).
Proof. reflexivity. Qed.

Lemma read_exact_bytes bs t r w e :
  read_exact_timeout (length bs) t (mkPort (map EvByte bs ++ r) w e)
  = ((1, bs), mkPort r w e).
Proof.
  induction bs as [|b bs IH]; [reflexivity|].
  cbn [read_exact_timeout length map app]. unfold bind, serial_read_timeout. cbn [inp].
  replace (Z.of_nat (S (length bs)) <=? 0) with false by (symmetry; apply Z.leb_gt; lia).
  cbn [fst snd wlog errno]. cbv beta iota.
  replace (1 <? 0) with false by reflexivity.
  replace (1 =? 0) with false by reflexivity.
  rewrite IH. reflexivity.
Qed.

Lemma send_cmd_response data om t payload sz r w e :
  (1 <= length data <= 253)%nat -> 0 < t -> 0 < om ->
  sz = Z.of_nat (length payload) + 2 -> sz < 256 -> Z.of_nat (length payload) <= om ->
  sbl_send_cmd data om t
    (mkPort (EvByte SBL_ACK :: EvByte sz :: EvByte (sum_bytes payload mod 256)
             :: map EvByte payload ++ r) w e)
  = ((Z.of_nat (length payload), payload),
     mkPort r (w ++ [code_frame data; [0; SBL_ACK]]) e).
Proof.
  intros Hd Ht Hom Hsz Hsz' Hp. unfold sbl_send_cmd.
  replace ((Z.of_nat (length data) =? 0) || (Z.of_nat (length data) >? 253)) with false
    by (symmetry; apply orb_false_iff; split; lia).
  unfold bind at 1, serial_write_all. cbn [inp wlog errno]. cbv beta.
  replace (Z.of_nat (length ((Z.of_nat (length data) + 2) mod 256 :: checksum_sum data :: data)) <? 0)
    with false by (symmetry; apply Z.ltb_ge; lia).
  unfold bind at 1. rewrite wait_ack_first_ack by exact Ht. cbv beta iota.
  replace (0 =? 0) with true by reflexivity.
  replace (om =? 0) with false by (symmetry; apply Z.eqb_neq; lia). cbn [negb].
  unfold bind at 1. rewrite read_exact_one. cbv beta iota zeta. cbn [hd].
  replace ((1 >? 0) && negb (sz =? 0)) with true
    by (symmetry; apply andb_true_iff; split; [reflexivity|]; apply negb_true_iff, Z.eqb_neq; lia).
  unfold bind at 1. rewrite read_exact_one. cbv beta iota. cbn [hd].
  replace (1 <=? 0) with false by reflexivity.
  replace ((sz - 2) mod U64) with (Z.of_nat (length payload))
    by (rewrite Z.mod_small by (unfold U64; simpl; lia); lia).
  replace (Z.of_nat (length payload) >? om) with false by (symmetry; rewrite Z.gtb_ltb; apply Z.ltb_ge; lia).
  unfold bind at 1. rewrite Nat2Z.id, read_exact_bytes. cbv beta iota.
  replace (1 <=? 0) with false by reflexivity.
  unfold bind at 1, serial_write_all. cbn [inp wlog errno length Z.of_nat]. cbv beta.
  replace (2 <? 0) with false by reflexivity.
  rewrite checksum_sum_spec, Z.eqb_refl. cbn [negb].
  unfold ret. rewrite <- app_assoc. reflexivity.
Qed.

(** ** Framing *)

(** C6: for every payload of 1 to 253 bytes, [sbl_send_cmd] writes the frame
    [[len+2; sum of the payload mod 256; payload...]] as the first and single
    transport write of the call; the only other write it may make is the
    2-byte acknowledgement of a response frame. *)
Theorem send_cmd_single_write_frame data out_max timeout_ms p :
  (1 <= length data <= 253)%nat ->
  exists acks,
    wlog (snd (sbl_send_cmd data out_max timeout_ms p)) = wlog p ++ spec_frame data :: acks
    /\ (acks = [] \/ acks = [[0; SBL_ACK]]).
Proof.
  intros H.
  destruct (send_cmd_wlog data out_max timeout_ms p H) as [acks [Hw Ha]].
  exists acks; split; [|exact Ha].
  rewrite Hw. unfold code_frame, spec_frame.
  rewrite checksum_sum_spec, (Z.mod_small (_ + 2)) by lia. reflexivity.
Qed.

Lemma send_cmd_single_write_frame_witness :
  (1 <= length [CMD_PING] <= 253)%nat /\
  exists acks,
    wlog (snd (sbl_send_cmd [CMD_PING] 0 500 (fresh_port ack_ev)))
    = wlog (fresh_port ack_ev) ++ spec_frame [CMD_PING] :: acks
    /\ (acks = [] \/ acks = [[0; SBL_ACK]]).
Proof.
  split; [cbn; lia|].
  apply send_cmd_single_write_frame. cbn; lia.
Defined.

(** C8: a payload of length 0 or above 253 makes [sbl_send_cmd] fail with
    [EINVAL] before any transport access: nothing is written and nothing
    is read. *)
Theorem send_cmd_rejects_bad_length data out_max timeout_ms p :
  (length data = 0 \/ 253 < length data)%nat ->
  sbl_send_cmd data out_max timeout_ms p = ((-1, []), mkPort (inp p) (wlog p) EINVAL).
Proof.
  intros H. unfold sbl_send_cmd.
  replace ((Z.of_nat (length data) =? 0) || (Z.of_nat (length data) >? 253)) with true
    by (symmetry; apply orb_true_iff; destruct H; [left|right]; lia).
  reflexivity.
Qed.

Lemma send_cmd_rejects_bad_length_witness :
  (length (@nil Z) = 0 \/ 253 < length (@nil Z))%nat /\
  sbl_send_cmd [] 0 500 (fresh_port ack_ev)
  = ((-1, []), mkPort (inp (fresh_port ack_ev)) (wlog (fresh_port ack_ev)) EINVAL).
Proof.
  split; [left; reflexivity|].
  apply send_cmd_rejects_bad_length. left; reflexivity.
Defined.

(** ** Response decoding *)

(** The response frame carrying [payload]: ACK of the command, then SIZE,
    CHECKSUM and the payload bytes. *)
Lemma get_chip_id_response t id0 b0 b1 b2 b3 r w e :
  0 < t ->
  sbl_get_chip_id t id0
    (mkPort (EvByte SBL_ACK :: EvByte 6 :: EvByte (sum_bytes [b0; b1; b2; b3] mod 256)
             :: map EvByte [b0; b1; b2; b3] ++ r) w e)
  = ((0, Z.lor (Z.lor (Z.lor b0 (Z.shiftl b1 8)) (Z.shiftl b2 16)) (Z.shiftl b3 24)),
     mkPort r (w ++ [code_frame [CMD_GET_CHIP_ID]; [0; SBL_ACK]]) e).
Proof.
  intros Ht. unfold sbl_get_chip_id, bind at 1.
  rewrite send_cmd_response by (cbn; lia). reflexivity.
Qed.

Lemma crc32_response addr len rep t crc0 b0 b1 b2 b3 r w e :
  0 < t ->
  sbl_crc32 addr len rep t crc0
    (mkPort (EvByte SBL_ACK :: EvByte 6 :: EvByte (sum_bytes [b0; b1; b2; b3] mod 256)
             :: map EvByte [b0; b1; b2; b3] ++ r) w e)
  = ((0, Z.lor (Z.lor (Z.lor (Z.shiftl b0 24) (Z.shiftl b1 16)) (Z.shiftl b2 8)) b3),
     mkPort r (w ++ [code_frame (CMD_CRC32 :: be32 addr ++ be32 len ++ be32 rep);
                     [0; SBL_ACK]]) e).
Proof.
  intros Ht. unfold sbl_crc32, bind at 1.
  rewrite send_cmd_response by (cbn; lia). reflexivity.
Qed.

(** C9: [sbl_get_chip_id] decodes its 4 response bytes little-endian and
    [sbl_crc32] big-endian; on the bytes [[1; 2; 3; 4]] they give
    [0x04030201] and [0x01020304]. *)
Theorem chip_id_le_crc32_be :
  (forall t id0 addr len rep crc0 b0 b1 b2 b3 r w e,
     0 < t ->
     0 <= b0 < 256 -> 0 <= b1 < 256 -> 0 <= b2 < 256 -> 0 <= b3 < 256 ->
     let line := mkPort (EvByte SBL_ACK :: EvByte 6
                         :: EvByte (sum_bytes [b0; b1; b2; b3] mod 256)
                         :: map EvByte [b0; b1; b2; b3] ++ r) w e in
     fst (sbl_get_chip_id t id0 line) = (0, b0 + b1 * 2 ^ 8 + b2 * 2 ^ 16 + b3 * 2 ^ 24)
     /\ fst (sbl_crc32 addr len rep t crc0 line)
        = (0, b0 * 2 ^ 24 + b1 * 2 ^ 16 + b2 * 2 ^ 8 + b3))
  /\ (let line := fresh_port [EvByte SBL_ACK; EvByte 6; EvByte 10;
                             EvByte 1; EvByte 2; EvByte 3; EvByte 4] in
      fst (sbl_get_chip_id 500 0 line) = (0, 67305985)       (* 0x04030201 *)
      /\ fst (sbl_crc32 0 0 0 500 0 line) = (0, 16909060)).  (* 0x01020304 *)
Proof.
  split.
  - intros t id0 addr len rep crc0 b0 b1 b2 b3 r w e Ht H0 H1 H2 H3 line.
    subst line. rewrite get_chip_id_response, crc32_response by exact Ht.
    cbn [fst]. rewrite decode_le, decode_be by assumption. split; reflexivity.
  - split; vm_compute; reflexivity.
Qed.

Lemma chip_id_le_crc32_be_witness :
  fst (sbl_get_chip_id 500 0
         (mkPort (EvByte SBL_ACK :: EvByte 6 :: EvByte (sum_bytes [1; 2; 3; 4] mod 256)
                  :: map EvByte [1; 2; 3; 4] ++ []) [] 0))
  = (0, 1 + 2 * 2 ^ 8 + 3 * 2 ^ 16 + 4 * 2 ^ 24).
Proof.
  apply (proj1 (proj1 chip_id_le_crc32_be 500 0 0 0 0 0 1 2 3 4 [] [] 0
                  ltac:(lia) ltac:(lia) ltac:(lia) ltac:(lia) ltac:(lia))).
Defined.

(** C7 refuted: a size byte of 0 is not a protocol error, the command
    succeeds with no payload. *)
Lemma size_byte_zero_succeeds :
  fst (sbl_send_cmd [CMD_GET_STATUS] 1 500 (fresh_port [EvByte SBL_ACK; EvByte 0]))
  = (0, []).
Proof. vm_compute. reflexivity. Qed.

(** C7 (amended): after the ACK, a size byte of 0 means "no response" and
    the command succeeds with no payload; a size byte of 1 makes
    [size - 2] wrap around in [size_t], the length check fails and the
    command returns -1 with [errno = EMSGSIZE] (after reading the checksum
    byte); a size byte [sz >= 2] announces a payload of [sz - 2] bytes. *)
Theorem response_size_byte data out_max t r w e :
  (1 <= length data <= 253)%nat -> 0 < t -> 0 < out_max < U64 - 1 ->
  sbl_send_cmd data out_max t (mkPort (EvByte SBL_ACK :: EvByte 0 :: r) w e)
    = ((0, []), mkPort r (w ++ [code_frame data]) e)
  /\ (forall c r',
        sbl_send_cmd data out_max t
          (mkPort (EvByte SBL_ACK :: EvByte 1 :: EvByte c :: r') w e)
        = ((-1, []), mkPort r' (w ++ [code_frame data]) EMSGSIZE))
  /\ (forall sz payload r',
        2 <= sz < 256 -> Z.of_nat (length payload) = sz - 2 -> sz - 2 <= out_max ->
        sbl_send_cmd data out_max t
          (mkPort (EvByte SBL_ACK :: EvByte sz :: EvByte (sum_bytes payload mod 256)
                   :: map EvByte payload ++ r') w e)
        = ((sz - 2, payload), mkPort r' (w ++ [code_frame data; [0; SBL_ACK]]) e)).
Proof.
  intros Hd Ht Hom.
  assert (Hpre : forall evs,
    sbl_send_cmd data out_max t (mkPort (EvByte SBL_ACK :: evs) w e)
    = ('(r0, szb) <- read_exact_timeout 1 50 ;;
       let sz := hd 0 szb in
       if (r0 >? 0) && negb (sz =? 0) then
         '(r2, csb) <- read_exact_timeout 1 t ;;
         if r2 <=? 0 then ret (-1, [])
         else
           let rx_csum := hd 0 csb in
           let payload_len := (sz - 2) mod U64 in
           if payload_len >? out_max then (_ <- set_errno EMSGSIZE ;; ret (-1, []))
           else
             '(r3, out) <- read_exact_timeout (Z.to_nat payload_len) t ;;
             if r3 <=? 0 then ret (-1, [])
             else
               w2 <- serial_write_all [0; SBL_ACK] ;;
               if w2 <? 0 then ret (-1, [])
               else if negb (checksum_sum out =? rx_csum)
               then (_ <- set_errno EPROTO ;; ret (-1, []))
               else ret (payload_len, out)
       else ret (0, [])) (mkPort evs (w ++ [code_frame data]) e)).
  { intros evs. unfold sbl_send_cmd.
    replace ((Z.of_nat (length data) =? 0) || (Z.of_nat (length data) >? 253)) with false
      by (symmetry; apply orb_false_iff; split; lia).
    unfold bind at 1, serial_write_all. cbn [inp wlog errno]. cbv beta.
    replace (Z.of_nat (length ((Z.of_nat (length data) + 2) mod 256 :: checksum_sum data :: data)) <? 0)
      with false by (symmetry; apply Z.ltb_ge; lia).
    unfold bind at 1. rewrite wait_ack_first_ack by exact Ht. cbv beta iota.
    replace (0 =? 0) with true by reflexivity.
    replace (out_max =? 0) with false by (symmetry; apply Z.eqb_neq; lia).
    reflexivity. }
  split; [|split].
  - rewrite Hpre. reflexivity.
  - intros c r'. rewrite Hpre.
    unfold bind at 1. rewrite read_exact_one. cbv beta iota zeta. cbn [hd].
    replace ((1 >? 0) && negb (1 =? 0)) with true by reflexivity.
    unfold bind at 1. rewrite read_exact_one. cbv beta iota. cbn [hd].
    replace (1 <=? 0) with false by reflexivity.
    replace ((1 - 2) mod U64) with (U64 - 1) by reflexivity.
    replace (U64 - 1 >? out_max) with true
      by (symmetry; rewrite Z.gtb_ltb; apply Z.ltb_lt; lia).
    reflexivity.
  - intros sz payload r' Hsz Hlen Hle.
    rewrite (send_cmd_response data out_max t payload sz r' w e) by lia.
    rewrite Hlen. reflexivity.
Qed.

Lemma response_size_byte_witness :
  (1 <= length [CMD_GET_STATUS] <= 253)%nat /\ 0 < 500 /\ 0 < 1 < U64 - 1 /\
  sbl_send_cmd [CMD_GET_STATUS] 1 500 (mkPort (EvByte SBL_ACK :: EvByte 0 :: []) [] 0)
    = ((0, []), mkPort [] ([] ++ [code_frame [CMD_GET_STATUS]]) 0).
Proof.
  split; [cbn; lia|]. split; [lia|]. split; [unfold U64; simpl; lia|].
  apply (proj1 (response_size_byte [CMD_GET_STATUS] 1 500 [] [] 0
                  ltac:(cbn; lia) ltac:(lia) ltac:(unfold U64; simpl; lia))).
Defined.

(** ** Undefined behaviour of the alignment check *)

(** C10: nothing guards [base_addr % page_size] against [page_size == 0]:
    [sbl_program_binary] reaches the undefined division exactly when
    [page_size = 0]; for any other page size every path returns. *)
Theorem program_binary_defined_iff flash_size page_size image base_addr p :
  fst (sbl_program_binary flash_size page_size image base_addr p) = None
  <-> page_size = 0.
Proof.
  unfold sbl_program_binary.
  destruct (Z.eqb_spec page_size 0) as [->|Hne].
  - simpl. split; reflexivity.
  - split; [|intro; contradiction]. intro H. exfalso.
    destruct (negb (base_addr mod page_size =? 0)); [discriminate H|].
    unfold bind in H. cbv beta zeta in H.
    repeat match type of H with
           | context [let (_, _) := ?m in _] => destruct m
           | context [match ?x with (_, _) => _ end] => destruct x
           | context [if ?b then _ else _] => destruct b
           end; discriminate H.
Qed.

(** ** Erase length *)

Lemma mask_round_down k y :
  0 <= k < 32 -> 0 <= y < U32 ->
  Z.land y (Z.lnot ((2 ^ k - 1) mod U32) mod U32) = y / 2 ^ k * 2 ^ k.
Proof.
  intros Hk Hy.
  assert (Hp : 0 < 2 ^ k) by (apply Z.pow_pos_nonneg; lia).
  assert (Hlt : 2 ^ k < U32) by (unfold U32; apply Z.pow_lt_mono_r; lia).
  rewrite (Z.mod_small (2 ^ k - 1)) by lia.
  replace (2 ^ k - 1) with (Z.ones k) by (rewrite Z.ones_equiv; lia).
  unfold U32 in *. rewrite <- Z.land_ones by lia.
  rewrite (Z.land_comm (Z.lnot _)), Z.land_assoc.
  rewrite Z.land_ones, (Z.mod_small y) by lia.
  rewrite <- Z.ldiff_land, Z.ldiff_ones_r by lia.
  rewrite Z.shiftl_mul_pow2, Z.shiftr_div_pow2 by lia. reflexivity.
Qed.

(** The mask only rounds up to a multiple of a power of two.  With
    [page_size = 3] and a 3-byte image the erase length is 5, not
    [round_up(3, 3) = 3]. *)
Lemma erase_len_not_round_up :
  erase_len_of 131072 3 0 3 = 5 /\ round_up 3 3 = 3.
Proof. split; reflexivity. Qed.

(** For a page size that is a power of two and an image
    with [image_len + page_size <= 2^32], [erase_len] is
    [round_up(image_len, page_size)], then capped to
    [(flash_size - page_size) - base_addr] when
    [base_addr + erase_len > flash_size - page_size], all in [uint32_t]
    arithmetic.  For [flash_size = 0x20000], [page_size = 0x1000],
    [image_len = 0x1500], [base_addr = 0] it is [0x2000], uncapped. *)
Theorem erase_len_pow2_round_up :
  (forall flash_size page_size image_len base_addr,
     is_pow2 page_size -> page_size < U32 -> 0 <= image_len ->
     image_len + page_size <= U32 ->
     round_erase_len page_size image_len = round_up image_len page_size
     /\ erase_len_of flash_size page_size base_addr image_len
        = let last_page_start := (flash_size - page_size) mod U32 in
          if (base_addr + round_up image_len page_size) mod U32 >? last_page_start
          then (last_page_start - base_addr) mod U32
          else round_up image_len page_size)
  /\ erase_len_of 131072 4096 0 5376 = 8192
  /\ (0 + 8192) mod U32 <= (131072 - 4096) mod U32.
Proof.
  split; [|split; reflexivity || discriminate].
  intros fs ps il base [k [Hk ->]] Hps Hil Hsum.
  assert (Hp : 0 < 2 ^ k) by (apply Z.pow_pos_nonneg; lia).
  assert (Hk32 : k < 32).
  { destruct (Z.lt_ge_cases k 32) as [|Hge]; [assumption|].
    exfalso. assert (2 ^ 32 <= 2 ^ k) by (apply Z.pow_le_mono_r; lia).
    unfold U32 in Hps. lia. }
  assert (Hr : round_erase_len (2 ^ k) il = round_up il (2 ^ k)).
  { unfold round_erase_len, round_up.
    rewrite (Z.mod_small (il + 2 ^ k - 1)) by (unfold U64, U32 in *; lia).
    rewrite mask_round_down by (unfold U32 in *; lia).
    apply Z.mod_small. split.
    - apply Z.mul_nonneg_nonneg; [apply Z.div_pos|]; lia.
    - pose proof (Z.mul_div_le (il + 2 ^ k - 1) (2 ^ k) Hp). lia. }
  split; [exact Hr|].
  unfold erase_len_of, cap_erase_len. rewrite Hr. reflexivity.
Qed.

Lemma erase_len_pow2_round_up_witness :
  round_erase_len 4096 5376 = round_up 5376 4096.
Proof.
  apply (proj1 (proj1 erase_len_pow2_round_up 131072 4096 5376 0
                  ltac:(exists 12; split; [lia | reflexivity])
                  ltac:(unfold U32; simpl; lia) ltac:(lia) ltac:(unfold U32; simpl; lia))).
Defined.

(** C3 (code bug): [sbl_program_binary] accepts every page size that
    divides [base_addr], but its mask
    [(image_len + page_size - 1) & ~(page_size - 1)], commented "rounded up
    to page size", only rounds up to a multiple of a power of two.  With
    [page_size = 3], [base_addr = 0] and a 3-byte image, [erase_len] is 5
    instead of [round_up(3, 3) = 3], and a successful run erases the pages at
    0 and 3 instead of the single page at 0. *)
Theorem erase_mask_non_pow2_page :
  erase_len_of 131072 3 0 3 = 5 /\ round_up 3 3 = 3 /\
  (let r := sbl_program_binary 131072 3 [1; 2; 3] 0
              (fresh_port (device_script [COMMAND_RET_SUCCESS; COMMAND_RET_SUCCESS] 1)) in
   fst r = Some 0 /\ cmd_payloads CMD_SECTOR_ERASE (wlog (snd r)) = [be32 0; be32 3]).
Proof.
  split; [reflexivity|]. split; [reflexivity|].
  vm_compute. split; reflexivity.
Qed.

(** ** The ACK handshake *)

Lemma ack_scan_nil n : ack_scan n [] = (Timeout, []).
Proof. destruct n; reflexivity. Qed.

Lemma slices_step t w n :
  S n = Z.to_nat ((t - w + 19) / 20) -> n = Z.to_nat ((t - (w + 20) + 19) / 20).
Proof.
  intros H.
  replace (t - (w + 20) + 19) with ((t - w + 19) + (-1) * 20) by ring.
  rewrite Z.div_add by lia. lia.
Qed.

(** The loop after [waited] ms have been used scans the next
    [ceil((timeout_ms - waited) / 20)] events. *)
Lemma wait_ack_loop_scan t : forall n fuel w p,
  n = Z.to_nat ((t - w + 19) / 20) -> (n < fuel)%nat ->
  wait_ack_loop fuel w t p
  = let (o, rest) := ack_scan n (inp p) in
    let (r, e) := outcome_ret o (errno p) in
    (r, mkPort rest (wlog p) e).
Proof.
  induction n as [|n IH]; intros fuel w p Hn Hf;
    (destruct fuel as [|fuel]; [lia|]); cbn [wait_ack_loop].
  - assert (Hle : t <= w).
    { assert ((t - w + 19) / 20 <= 0) by lia. Z.div_mod_to_equations. lia. }
    replace (w <? t) with false by (symmetry; apply Z.ltb_ge; lia).
    destruct p; reflexivity.
  - assert (Hlt : w < t).
    { assert (0 < (t - w + 19) / 20) by lia. Z.div_mod_to_equations. lia. }
    replace (w <? t) with true by (symmetry; apply Z.ltb_lt; lia).
    pose proof (slices_step t w n Hn) as Hn'.
    unfold bind, serial_read_timeout.
    destruct p as [evs wl er]; cbn [inp wlog errno].
    destruct evs as [|[e'| |b] r]; cbv beta iota zeta.
    + rewrite (IH fuel (w + 20)) by lia. cbn [inp]. rewrite ack_scan_nil. reflexivity.
    + reflexivity.
    + rewrite (IH fuel (w + 20)) by lia. reflexivity.
    + replace (1 <=? 0) with false by reflexivity. cbv iota.
      replace (1 <? 0) with false by reflexivity.
      replace (1 =? 1) with true by reflexivity.
      cbn [ack_scan].
      destruct (b =? SBL_ACK); [reflexivity|].
      destruct (b =? SBL_NACK); [reflexivity|].
      rewrite (IH fuel (w + 20)) by lia. reflexivity.
Qed.

(** C5: [sbl_wait_ack timeout_ms] behaves as the handshake of the spec: it
    scans the next [ceil(timeout_ms / 20)] poll slices; the first [0xCC]
    gives success, the first [0x33] gives [Rejected] ([errno = EPROTO]), a
    read error gives [IoError] (its errno), and any other byte or an empty
    slice is discarded and uses up its 20 ms; with no verdict in the budget
    the result is [Timeout] ([errno = ETIMEDOUT]). *)
Theorem wait_ack_refines_spec timeout_ms p :
  sbl_wait_ack timeout_ms p = wait_ack_spec timeout_ms p.
Proof.
  unfold sbl_wait_ack, wait_ack_spec, slices.
  apply wait_ack_loop_scan.
  - f_equal. f_equal. lia.
  - destruct (Z.le_gt_cases timeout_ms 0).
    + assert ((timeout_ms + 19) / 20 <= 0) by (Z.div_mod_to_equations; lia). lia.
    + assert ((timeout_ms + 19) / 20 <= timeout_ms) by (Z.div_mod_to_equations; lia). lia.
Qed.

(** ** Which commands each step writes *)

Lemma cmd_payloads_app op l1 l2 :
  cmd_payloads op (l1 ++ l2) = cmd_payloads op l1 ++ cmd_payloads op l2.
Proof. unfold cmd_payloads. apply flat_map_app. Qed.

Lemma send_cmd_invalid data om t p :
  (length data = 0 \/ 253 < length data)%nat ->
  sbl_send_cmd data om t p = ((-1, []), mkPort (inp p) (wlog p) EINVAL).
Proof.
  intros H. unfold sbl_send_cmd.
  replace ((Z.of_nat (length data) =? 0) || (Z.of_nat (length data) >? 253)) with true
    by (symmetry; apply orb_true_iff; destruct H; [left|right]; lia).
  reflexivity.
Qed.

Lemma acks_no_payload op acks :
  (acks = [] \/ acks = [[0; SBL_ACK]]) -> cmd_payloads op acks = [].
Proof. intros [-> | ->]; reflexivity. Qed.

Lemma send_cmd_other op data om t p :
  (forall rest, data <> op :: rest) ->
  cmd_payloads op (wlog (snd (sbl_send_cmd data om t p))) = cmd_payloads op (wlog p).
Proof.
  intros Hop.
  destruct (Nat.eq_dec (length data) 0) as [H0|H0];
    [rewrite send_cmd_invalid by lia; reflexivity|].
  destruct (Nat.lt_ge_cases 253 (length data)) as [H1|H1];
    [rewrite send_cmd_invalid by lia; reflexivity|].
  destruct (send_cmd_wlog data om t p ltac:(lia)) as [acks [Hw Ha]].
  rewrite Hw, cmd_payloads_app.
  change (code_frame data :: acks) with ([code_frame data] ++ acks).
  rewrite cmd_payloads_app, (acks_no_payload op acks Ha).
  destruct data as [|c rest]; [simpl in H0; lia|].
  unfold cmd_payloads at 2, code_frame. simpl flat_map.
  replace (c =? op) with false
    by (symmetry; apply Z.eqb_neq; intros ->; exact (Hop rest eq_refl)).
  simpl. rewrite !app_nil_r. reflexivity.
Qed.

Lemma send_cmd_same op rest om t p :
  (length rest <= 252)%nat ->
  cmd_payloads op (wlog (snd (sbl_send_cmd (op :: rest) om t p)))
  = cmd_payloads op (wlog p) ++ [rest].
Proof.
  intros Hl.
  destruct (send_cmd_wlog (op :: rest) om t p ltac:(simpl; lia)) as [acks [Hw Ha]].
  rewrite Hw, cmd_payloads_app.
  change (code_frame (op :: rest) :: acks) with ([code_frame (op :: rest)] ++ acks).
  rewrite cmd_payloads_app, (acks_no_payload op acks Ha).
  unfold cmd_payloads at 2, code_frame. simpl flat_map. rewrite Z.eqb_refl. simpl.
  rewrite ?app_nil_r. reflexivity.
Qed.

Lemma get_status_wlog t s p :
  wlog (snd (sbl_get_status t s p)) = wlog (snd (sbl_send_cmd [CMD_GET_STATUS] 1 t p)).
Proof.
  unfold sbl_get_status, bind.
  destruct (sbl_send_cmd [CMD_GET_STATUS] 1 t p) as [[n resp] q].
  destruct (n <? 0); [reflexivity|]. destruct (n =? 1); reflexivity.
Qed.

Lemma sector_erase_wlog a t p :
  wlog (snd (sbl_sector_erase a t p))
  = wlog (snd (sbl_send_cmd (CMD_SECTOR_ERASE :: be32 a) 0 t p)).
Proof.
  unfold sbl_sector_erase, bind.
  destruct (sbl_send_cmd (CMD_SECTOR_ERASE :: be32 a) 0 t p) as [[n resp] q]. reflexivity.
Qed.

Lemma download_wlog a l t p :
  wlog (snd (sbl_download a l t p))
  = wlog (snd (sbl_send_cmd (CMD_DOWNLOAD :: be32 a ++ be32 l) 0 t p)).
Proof.
  unfold sbl_download, bind.
  destruct (sbl_send_cmd (CMD_DOWNLOAD :: be32 a ++ be32 l) 0 t p) as [[n resp] q].
  reflexivity.
Qed.

Lemma reset_wlog t p :
  wlog (snd (sbl_reset t p)) = wlog (snd (sbl_send_cmd [CMD_RESET] 0 t p)).
Proof.
  unfold sbl_reset, bind.
  destruct (sbl_send_cmd [CMD_RESET] 0 t p) as [[n resp] q]. reflexivity.
Qed.

Lemma send_data_wlog chunk t p :
  wlog (snd (sbl_send_data chunk t p))
  = if (Z.of_nat (length chunk) =? 0) || (Z.of_nat (length chunk) >? 252) then wlog p
    else wlog (snd (sbl_send_cmd (CMD_SEND_DATA :: chunk) 0 t p)).
Proof.
  unfold sbl_send_data, bind.
  destruct ((Z.of_nat (length chunk) =? 0) || (Z.of_nat (length chunk) >? 252));
    [reflexivity|].
  destruct (sbl_send_cmd (CMD_SEND_DATA :: chunk) 0 t p) as [[n resp] q]. reflexivity.
Qed.

Lemma get_status_other op t s p :
  op <> CMD_GET_STATUS ->
  cmd_payloads op (wlog (snd (sbl_get_status t s p))) = cmd_payloads op (wlog p).
Proof.
  intros H. rewrite get_status_wlog. apply send_cmd_other. congruence.
Qed.

Lemma send_data_other op chunk t p :
  op <> CMD_SEND_DATA ->
  cmd_payloads op (wlog (snd (sbl_send_data chunk t p))) = cmd_payloads op (wlog p).
Proof.
  intros H. rewrite send_data_wlog.
  destruct (_ || _); [reflexivity|]. apply send_cmd_other. congruence.
Qed.

Lemma sector_erase_other op a t p :
  op <> CMD_SECTOR_ERASE ->
  cmd_payloads op (wlog (snd (sbl_sector_erase a t p))) = cmd_payloads op (wlog p).
Proof.
  intros H. rewrite sector_erase_wlog. apply send_cmd_other. congruence.
Qed.

Lemma download_other op a l t p :
  op <> CMD_DOWNLOAD ->
  cmd_payloads op (wlog (snd (sbl_download a l t p))) = cmd_payloads op (wlog p).
Proof.
  intros H. rewrite download_wlog. apply send_cmd_other. congruence.
Qed.

Lemma reset_other op t p :
  op <> CMD_RESET ->
  cmd_payloads op (wlog (snd (sbl_reset t p))) = cmd_payloads op (wlog p).
Proof.
  intros H. rewrite reset_wlog. apply send_cmd_other. congruence.
Qed.

(** ** The erase loop *)

Lemma erase_loop_other op fuel a base el ps p :
  op <> CMD_SECTOR_ERASE -> op <> CMD_GET_STATUS ->
  cmd_payloads op (wlog (snd (erase_loop fuel a base el ps p))) = cmd_payloads op (wlog p).
Proof.
  intros H1 H2. revert a p; induction fuel as [|fuel IH]; intros a p; [reflexivity|].
  cbn [erase_loop]. destruct (a <? (base + el) mod U32); [|reflexivity].
  unfold bind.
  pose proof (sector_erase_other op a 5000 p H1) as E1.
  destruct (sbl_sector_erase a 5000 p) as [r p1]; simpl in E1.
  destruct (negb (r =? 0)); [exact E1|].
  pose proof (get_status_other op 1000 0 p1 H2) as E2.
  destruct (sbl_get_status 1000 0 p1) as [[g st] p2]; simpl in E2.
  destruct (negb (g =? 0)); [simpl; congruence|].
  rewrite IH. congruence.
Qed.

(** Every SECTOR_ERASE the loop issues is for an address below its bound
    [base_addr + erase_len] (in [uint32_t]). *)
Lemma erase_loop_addrs fuel base el ps : forall a p,
  0 <= a ->
  exists new,
    cmd_payloads CMD_SECTOR_ERASE (wlog (snd (erase_loop fuel a base el ps p)))
    = cmd_payloads CMD_SECTOR_ERASE (wlog p) ++ new
    /\ Forall (fun x => exists a', 0 <= a' < (base + el) mod U32 /\ x = be32 a') new.
Proof.
  induction fuel as [|fuel IH]; intros a p Ha.
  { exists []. rewrite app_nil_r. split; [reflexivity | constructor]. }
  cbn [erase_loop]. destruct (Z.ltb_spec a ((base + el) mod U32)) as [Hlt|Hge];
    [|exists []; rewrite app_nil_r; split; [reflexivity | constructor]].
  unfold bind.
  assert (E1 : cmd_payloads CMD_SECTOR_ERASE (wlog (snd (sbl_sector_erase a 5000 p)))
               = cmd_payloads CMD_SECTOR_ERASE (wlog p) ++ [be32 a])
    by (rewrite sector_erase_wlog; apply send_cmd_same; simpl; lia).
  destruct (sbl_sector_erase a 5000 p) as [r p1]; simpl in E1.
  destruct (negb (r =? 0)).
  { exists [be32 a]. split; [exact E1|]. constructor; [exists a; split; [lia | reflexivity] | constructor]. }
  pose proof (get_status_other CMD_SECTOR_ERASE 1000 0 p1 ltac:(discriminate)) as E2.
  destruct (sbl_get_status 1000 0 p1) as [[g st] p2]; simpl in E2.
  destruct (negb (g =? 0)).
  { exists [be32 a]. split; [simpl; congruence|].
    constructor; [exists a; split; [lia | reflexivity] | constructor]. }
  destruct (IH ((a + ps) mod U32) p2 ltac:(apply Z.mod_pos_bound; unfold U32; lia))
    as [new [Hn Hf]].
  exists (be32 a :: new). split.
  - rewrite Hn, E2, E1, <- app_assoc. reflexivity.
  - constructor; [exists a; split; [lia | reflexivity] | exact Hf].
Qed.

(** ** Padding arithmetic *)

Lemma total_len_props il :
  0 <= il -> il + 4 <= U64 ->
  total_len_of il = round_up il 4 /\ il <= total_len_of il < il + 4
  /\ total_len_of il mod 4 = 0.
Proof.
  intros H0 H1. unfold total_len_of, round_up.
  destruct (Z.eqb_spec (il mod 4) 0) as [Hm|Hm]; cbn [negb].
  - Z.div_mod_to_equations. lia.
  - rewrite Z.mod_small by (pose proof (Z.mod_pos_bound il 4); lia).
    Z.div_mod_to_equations. lia.
Qed.

Lemma firstn_repeat_le {A} (x : A) n m :
  (n <= m)%nat -> firstn n (repeat x m) = repeat x n.
Proof.
  revert m; induction n as [|n IH]; intros m Hm; [reflexivity|].
  destruct m as [|m]; [lia|]. simpl. rewrite IH by lia. reflexivity.
Qed.

(** The buffer of one transfer iteration is the next [chunk_len] bytes of
    the image padded with [0xFF] up to [total_len]. *)
Lemma chunk_buf_padded img off :
  let il := Z.of_nat (length img) in
  let tl := total_len_of il in
  let chunk_len := if tl - off >? 252 then 252 else tl - off in
  il + 4 <= U64 -> 0 <= off < tl -> off mod 4 = 0 ->
  chunk_buf img il tl off
  = firstn (Z.to_nat chunk_len)
      (skipn (Z.to_nat off) (img ++ repeat 255 (Z.to_nat (tl - il)))).
Proof.
  intros il tl ch Hu Hoff Hm.
  destruct (total_len_props il ltac:(lia) Hu) as [_ [Htl Htm]].
  fold tl in Htl, Htm.
  assert (Hle : off <= il) by (Z.div_mod_to_equations; lia).
  assert (Hch : 1 <= ch <= 252 /\ off + ch <= tl)
    by (subst ch; destruct (Z.gtb_spec (tl - off) 252); lia).
  unfold chunk_buf. fold ch.
  rewrite skipn_app, (proj2 (Nat.sub_0_le _ _)) by lia. cbn [skipn].
  rewrite firstn_app, length_skipn.
  destruct (Z.gtb_spec (off + ch) il) as [Hc|Hc].
  - rewrite Z.mod_small by (unfold U64 in *; lia).
    rewrite (firstn_all2 (n := Z.to_nat (il - off))) by (rewrite length_skipn; lia).
    rewrite (firstn_all2 (n := Z.to_nat ch)) by (rewrite length_skipn; lia).
    rewrite firstn_repeat_le by lia.
    f_equal. f_equal. lia.
  - replace (Z.to_nat ch - (length img - Z.to_nat off))%nat with 0%nat by lia.
    replace (Z.to_nat (ch - ch)) with 0%nat by lia.
    cbn [firstn repeat]. reflexivity.
Qed.

(** ** The transfer loop *)

Lemma transfer_loop_other op fuel img il tl : forall off p,
  op <> CMD_SEND_DATA -> op <> CMD_GET_STATUS ->
  cmd_payloads op (wlog (snd (transfer_loop fuel img il tl off p)))
  = cmd_payloads op (wlog p).
Proof.
  induction fuel as [|fuel IH]; intros off p H1 H2; [reflexivity|].
  cbn [transfer_loop]. destruct (off <? tl); [|reflexivity]. cbv zeta.
  unfold bind.
  pose proof (send_data_other op (chunk_buf img il tl off) 1000 p H1) as E1.
  destruct (sbl_send_data (chunk_buf img il tl off) 1000 p) as [r p1]; simpl in E1.
  destruct (negb (r =? 0)); [exact E1|].
  pose proof (get_status_other op 500 0 p1 H2) as E2.
  destruct (sbl_get_status 500 0 p1) as [[g st] p2]; simpl in E2.
  destruct (negb (g =? 0)); [simpl; congruence|].
  destruct (negb (st =? 64)); [simpl; congruence|].
  rewrite IH by assumption. congruence.
Qed.

Lemma transfer_loop_chunks img fuel : forall off p,
  let il := Z.of_nat (length img) in
  let tl := total_len_of il in
  let padded := img ++ repeat 255 (Z.to_nat (tl - il)) in
  il + 4 <= U64 -> 0 <= off <= tl -> off mod 4 = 0 ->
  fst (transfer_loop fuel img il tl off p) = 0 ->
  exists cs,
    cmd_payloads CMD_SEND_DATA (wlog (snd (transfer_loop fuel img il tl off p)))
    = cmd_payloads CMD_SEND_DATA (wlog p) ++ cs
    /\ concat cs = skipn (Z.to_nat off) padded
    /\ Forall (fun c => (1 <= length c <= 252)%nat) cs
    /\ length cs = Z.to_nat ((tl - off + 251) / 252).
Proof.
  induction fuel as [|fuel IH]; intros off p il tl padded Hu Hoff Hm Hr.
  { simpl in Hr. discriminate Hr. }
  destruct (total_len_props il ltac:(lia) Hu) as [_ [Htl Htm]]. fold tl in Htl, Htm.
  assert (Hpl : length padded = Z.to_nat tl)
    by (subst padded; rewrite length_app, repeat_length; lia).
  cbn [transfer_loop] in *. fold il tl in Hr |- *.
  destruct (Z.ltb_spec off tl) as [Hlt|Hge].
  2:{ assert (off = tl) by lia. subst off.
      exists []. split; [rewrite app_nil_r; reflexivity|].
      split; [rewrite skipn_all2 by lia; reflexivity|].
      split; [constructor|]. replace (tl - tl + 251) with 251 by lia. reflexivity. }
  cbv zeta in Hr |- *.
  set (ch := if tl - off >? 252 then 252 else tl - off) in *.
  assert (Hch : 1 <= ch <= 252 /\ off + ch <= tl /\ (off + ch) mod 4 = 0).
  { subst ch; destruct (Z.gtb_spec (tl - off) 252).
    - split; [lia|]. split; [lia|]. rewrite <- Z.add_mod_idemp_l, Hm by lia. reflexivity.
    - split; [lia|]. split; [lia|]. replace (off + (tl - off)) with tl by lia. exact Htm. }
  assert (Hoff' : 0 <= off < tl) by lia.
  pose proof (chunk_buf_padded img off Hu Hoff' Hm) as Ebuf.
  cbv zeta in Ebuf. fold il tl ch padded in Ebuf.
  set (buf := chunk_buf img il tl off) in *.
  assert (Hlen : length buf = Z.to_nat ch)
    by (rewrite Ebuf, length_firstn, length_skipn; lia).
  unfold bind in Hr |- *.
  assert (E1 : cmd_payloads CMD_SEND_DATA (wlog (snd (sbl_send_data buf 1000 p)))
               = cmd_payloads CMD_SEND_DATA (wlog p) ++ [buf]).
  { rewrite send_data_wlog.
    replace ((Z.of_nat (length buf) =? 0) || (Z.of_nat (length buf) >? 252)) with false
      by (symmetry; apply orb_false_iff; split; lia).
    apply send_cmd_same. lia. }
  destruct (sbl_send_data buf 1000 p) as [r p1]; simpl in E1.
  destruct (negb (r =? 0)); [discriminate Hr|].
  pose proof (get_status_other CMD_SEND_DATA 500 0 p1 ltac:(discriminate)) as E2.
  destruct (sbl_get_status 500 0 p1) as [[g st] p2]; simpl in E2.
  destruct (negb (g =? 0)); [discriminate Hr|].
  destruct (negb (st =? 64)); [discriminate Hr|].
  assert (Hoff2 : 0 <= off + ch <= tl) by lia.
  destruct (IH (off + ch) p2 Hu Hoff2 (proj2 (proj2 Hch)) Hr)
    as [cs [Hcs [Hcat [Hall Hcount]]]].
  fold il tl padded in Hcs, Hcat, Hcount.
  exists (buf :: cs). split; [|split; [|split]].
  - rewrite Hcs, E2, E1, <- app_assoc. reflexivity.
  - simpl. rewrite Hcat, Ebuf.
    replace (Z.to_nat (off + ch)) with (Z.to_nat ch + Z.to_nat off)%nat by lia.
    rewrite <- skipn_skipn. apply firstn_skipn.
  - constructor; [lia | exact Hall].
  - simpl. rewrite Hcount.
    assert (Hcase : (ch = 252 /\ 252 < tl - off) \/ (ch = tl - off /\ tl - off <= 252))
      by (subst ch; destruct (Z.gtb_spec (tl - off) 252); lia).
    assert (Hdiv : (tl - off + 251) / 252 = (tl - (off + ch) + 251) / 252 + 1)
      by (Z.div_mod_to_equations; lia).
    rewrite Hdiv.
    assert (0 <= (tl - (off + ch) + 251) / 252) by (apply Z.div_pos; lia).
    lia.
Qed.

(** ** [sbl_program_binary] *)

(** C2: when [sbl_program_binary] succeeds, the SEND_DATA chunks it sent are
    the image followed by [0xFF] padding up to [total_len], which is the
    image length rounded up to a multiple of 4; every chunk has 1 to 252
    bytes and there are [ceil(total_len / 252)] of them, so 3 for a
    517-byte image. *)
Theorem program_binary_sends_padded_image flash_size page_size img base_addr p p' :
  Z.of_nat (length img) + 4 <= U64 ->
  sbl_program_binary flash_size page_size img base_addr p = (Some 0, p') ->
  let il := Z.of_nat (length img) in
  exists cs,
    cmd_payloads CMD_SEND_DATA (wlog p') = cmd_payloads CMD_SEND_DATA (wlog p) ++ cs
    /\ total_len_of il = round_up il 4
    /\ concat cs = img ++ repeat 255 (Z.to_nat (round_up il 4 - il))
    /\ Z.of_nat (length (concat cs)) = round_up il 4
    /\ Forall (fun c => (1 <= length c <= 252)%nat) cs
    /\ length cs = Z.to_nat ((round_up il 4 + 251) / 252)
    /\ (length img = 517%nat -> length cs = 3%nat).
Proof.
  intros Hu H il.
  destruct (total_len_props il (Nat2Z.is_nonneg _) Hu) as [Hrt [Htl Htm]].
  unfold sbl_program_binary in H.
  destruct (page_size =? 0); [discriminate H|].
  destruct (negb (base_addr mod page_size =? 0)); [discriminate H|].
  cbv beta zeta in H. unfold bind in H. fold il in H.
  pose proof (erase_loop_other CMD_SEND_DATA (S (length (inp p))) base_addr base_addr
                (erase_len_of flash_size page_size base_addr il) page_size p
                ltac:(discriminate) ltac:(discriminate)) as E1.
  destruct (erase_loop _ base_addr base_addr _ page_size p) as [e p1]; simpl in E1.
  destruct (negb (e =? 0)); [discriminate H|].
  pose proof (download_other CMD_SEND_DATA base_addr (total_len_of il mod U32) 1000 p1
                ltac:(discriminate)) as E2.
  destruct (sbl_download base_addr (total_len_of il mod U32) 1000 p1) as [d p2]; simpl in E2.
  destruct (negb (d =? 0)); [discriminate H|].
  pose proof (get_status_other CMD_SEND_DATA 500 0 p2 ltac:(discriminate)) as E3.
  destruct (sbl_get_status 500 0 p2) as [[g st] p3]; simpl in E3.
  destruct (negb (g =? 0)); [discriminate H|].
  destruct (negb (st =? 64)); [discriminate H|].
  pose proof (transfer_loop_chunks img (S (Z.to_nat (total_len_of il))) 0 p3 Hu
                ltac:(pose proof (Nat2Z.is_nonneg (length img)); unfold il in *; lia) eq_refl) as Ht.
  cbv zeta in Ht. fold il in Ht.
  destruct (transfer_loop _ img il (total_len_of il) 0 p3) as [t p4]; simpl in Ht.
  destruct (negb (t =? 0)) eqn:Et; [discriminate H|].
  apply negb_false_iff, Z.eqb_eq in Et.
  destruct (Ht Et) as [cs [Hcs [Hcat [Hall Hcount]]]].
  pose proof (reset_other CMD_SEND_DATA 1000 p4 ltac:(discriminate)) as E5.
  destruct (sbl_reset 1000 p4) as [rr p5]; simpl in E5.
  injection H as <-.
  rewrite Hrt in Hcat, Hcount. cbn [skipn Z.to_nat] in Hcat.
  exists cs. split; [|split; [exact Hrt|split; [exact Hcat|split; [|split; [exact Hall|split]]]]].
  - congruence.
  - rewrite Hcat, length_app, repeat_length. lia.
  - rewrite Hcount. f_equal. f_equal. lia.
  - intros H517. rewrite Hcount. unfold il, round_up. rewrite H517. reflexivity.
Qed.

Lemma program_binary_sends_padded_image_witness :
  let img := repeat 7 517 in
  let p0 := fresh_port (device_script [COMMAND_RET_SUCCESS] 3) in
  let r := sbl_program_binary 131072 4096 img 0 p0 in
  Z.of_nat (length img) + 4 <= U64 /\ r = (Some 0, snd r) /\
  let il := Z.of_nat (length img) in
  exists cs,
    cmd_payloads CMD_SEND_DATA (wlog (snd r)) = cmd_payloads CMD_SEND_DATA (wlog p0) ++ cs
    /\ total_len_of il = round_up il 4
    /\ concat cs = img ++ repeat 255 (Z.to_nat (round_up il 4 - il))
    /\ Z.of_nat (length (concat cs)) = round_up il 4
    /\ Forall (fun c => (1 <= length c <= 252)%nat) cs
    /\ length cs = Z.to_nat ((round_up il 4 + 251) / 252)
    /\ (length img = 517%nat -> length cs = 3%nat).
Proof.
  intros img p0 r.
  assert (Hu : Z.of_nat (length img) + 4 <= U64) by (unfold U64, img; rewrite repeat_length; simpl; lia).
  assert (Hr : r = (Some 0, snd r)) by (vm_compute; reflexivity).
  split; [exact Hu|]. split; [exact Hr|].
  exact (program_binary_sends_padded_image 131072 4096 img 0 p0 (snd r) Hu Hr).
Defined.

Lemma cap_erase_len_bound fs ps base el :
  (base + cap_erase_len fs ps base el) mod U32 <= (fs - ps) mod U32.
Proof.
  unfold cap_erase_len. set (L := (fs - ps) mod U32).
  assert (HL : 0 <= L < U32) by (apply Z.mod_pos_bound; unfold U32; lia).
  destruct (Z.gtb_spec ((base + el) mod U32) L) as [Hc|Hc]; [|exact Hc].
  rewrite Z.add_mod_idemp_r by (unfold U32; lia).
  replace (base + (L - base)) with L by lia.
  rewrite Z.mod_small by exact HL. lia.
Qed.

(** C4: in the program's [uint32_t] arithmetic, [base_addr + erase_len] never
    exceeds [flash_size - page_size], and every SECTOR_ERASE that
    [sbl_program_binary] issues is for an address below
    [flash_size - page_size], so the final flash page (CCFG) is never
    erased. *)
Theorem program_binary_spares_last_page flash_size page_size img base_addr p :
  0 <= base_addr ->
  (base_addr + erase_len_of flash_size page_size base_addr (Z.of_nat (length img))) mod U32
    <= (flash_size - page_size) mod U32
  /\ exists new,
    cmd_payloads CMD_SECTOR_ERASE
      (wlog (snd (sbl_program_binary flash_size page_size img base_addr p)))
    = cmd_payloads CMD_SECTOR_ERASE (wlog p) ++ new
    /\ Forall (fun x => exists a, 0 <= a < (flash_size - page_size) mod U32 /\ x = be32 a) new.
Proof.
  intros Hb.
  assert (Hbound := cap_erase_len_bound flash_size page_size base_addr
                      (round_erase_len page_size (Z.of_nat (length img)))).
  fold (erase_len_of flash_size page_size base_addr (Z.of_nat (length img))) in Hbound.
  split; [exact Hbound|].
  unfold sbl_program_binary.
  destruct (page_size =? 0);
    [exists []; rewrite app_nil_r; split; [reflexivity | constructor]|].
  destruct (negb (base_addr mod page_size =? 0));
    [exists []; rewrite app_nil_r; split; [reflexivity | constructor]|].
  cbv beta zeta. unfold bind.
  set (el := erase_len_of flash_size page_size base_addr (Z.of_nat (length img))) in *.
  destruct (erase_loop_addrs (S (length (inp p))) base_addr el page_size base_addr p Hb)
    as [new [Hn Hf]].
  assert (Hf' : Forall (fun x => exists a, 0 <= a < (flash_size - page_size) mod U32
                                          /\ x = be32 a) new).
  { eapply Forall_impl; [|exact Hf]. intros x [a' [Ha' ->]]. exists a'. split; [lia | reflexivity]. }
  exists new. split; [|exact Hf'].
  destruct (erase_loop _ base_addr base_addr el page_size p) as [e p1]; simpl in Hn.
  destruct (negb (e =? 0)); [exact Hn|].
  pose proof (download_other CMD_SECTOR_ERASE base_addr
                (total_len_of (Z.of_nat (length img)) mod U32) 1000 p1
                ltac:(discriminate)) as E2.
  destruct (sbl_download _ _ 1000 p1) as [d p2]; simpl in E2.
  destruct (negb (d =? 0)); [simpl; congruence|].
  pose proof (get_status_other CMD_SECTOR_ERASE 500 0 p2 ltac:(discriminate)) as E3.
  destruct (sbl_get_status 500 0 p2) as [[g st] p3]; simpl in E3.
  destruct (negb (g =? 0)); [simpl; congruence|].
  destruct (negb (st =? 64)); [simpl; congruence|].
  pose proof (transfer_loop_other CMD_SECTOR_ERASE
                (S (Z.to_nat (total_len_of (Z.of_nat (length img))))) img
                (Z.of_nat (length img)) (total_len_of (Z.of_nat (length img))) 0 p3
                ltac:(discriminate) ltac:(discriminate)) as E4.
  destruct (transfer_loop _ img _ _ 0 p3) as [t p4]; simpl in E4.
  destruct (negb (t =? 0)); [simpl; congruence|].
  pose proof (reset_other CMD_SECTOR_ERASE 1000 p4 ltac:(discriminate)) as E5.
  destruct (sbl_reset 1000 p4) as [rr p5]; simpl in E5.
  simpl. congruence.
Qed.

Lemma program_binary_spares_last_page_witness :
  let img := repeat 7 517 in
  let p0 := fresh_port (device_script [COMMAND_RET_SUCCESS] 3) in
  0 <= 126976 /\
  ((126976 + erase_len_of 131072 4096 126976 (Z.of_nat (length img))) mod U32
    <= (131072 - 4096) mod U32
  /\ exists new,
    cmd_payloads CMD_SECTOR_ERASE
      (wlog (snd (sbl_program_binary 131072 4096 img 126976 p0)))
    = cmd_payloads CMD_SECTOR_ERASE (wlog p0) ++ new
    /\ Forall (fun x => exists a, 0 <= a < (131072 - 4096) mod U32 /\ x = be32 a) new).
Proof.
  intros img p0. split; [lia|].
  exact (program_binary_spares_last_page 131072 4096 img 126976 p0 ltac:(lia)).
Defined.

(** C1: the erase loop only aborts on transport failures; the status byte read
    by GET_STATUS after each SECTOR_ERASE is not compared with
    [COMMAND_RET_SUCCESS] (unlike the status after DOWNLOAD and after each
    SEND_DATA).  With [flash_size = 0x20000], [page_size = 0x1000],
    [base_addr = 0] and a 0x1500-byte image, a device that answers the second
    GET_STATUS of the erase loop with FLASH_FAIL (0x44) still sees both
    SECTOR_ERASEs, then DOWNLOAD and all 22 SEND_DATA chunks, and
    [sbl_program_binary] returns 0. *)
Theorem erase_flash_fail_not_aborted :
  let p0 := fresh_port (device_script [COMMAND_RET_SUCCESS; COMMAND_RET_FLASH_FAIL] 22) in
  let r := sbl_program_binary 131072 4096 (repeat 0 (Z.to_nat 5376)) 0 p0 in
  fst r = Some 0
  /\ cmd_payloads CMD_SECTOR_ERASE (wlog (snd r)) = [be32 0; be32 4096]
  /\ length (cmd_payloads CMD_GET_STATUS (wlog (snd r))) = 25%nat
  /\ cmd_payloads CMD_DOWNLOAD (wlog (snd r)) = [be32 0 ++ be32 5376]
  /\ length (cmd_payloads CMD_SEND_DATA (wlog (snd r))) = 22%nat.
Proof.
  vm_compute. repeat split.
Qed.

(** ** [parse_byte] *)

(** [parse_byte] reads back the decimal, [0x]-hexadecimal (either case) and
    [0]-octal spelling of every byte value, and refuses the decimal spelling
    of every value from 256 to 999. *)
Theorem parse_byte_spellings n :
  (0 <= n < 256 ->
   parse_byte (dec_spelling n) = Some n /\ parse_byte (hex_spelling_upper n) = Some n
   /\ parse_byte (hex_spelling_lower n) = Some n /\ parse_byte (oct_spelling n) = Some n)
  /\ (256 <= n < 1000 -> parse_byte (dec_spelling n) = None).
Proof.
  set (is_some v r := match r with Some v' => v' =? v | None => false end).
  assert (Hok : forallb (fun k => let m := Z.of_nat k in
                  is_some m (parse_byte (dec_spelling m)) && is_some m (parse_byte (hex_spelling_upper m))
                  && is_some m (parse_byte (hex_spelling_lower m)) && is_some m (parse_byte (oct_spelling m)))
                (seq 0 256) = true) by (subst is_some; vm_compute; reflexivity).
  assert (Hno : forallb (fun k => match parse_byte (dec_spelling (Z.of_nat k)) with
                                  | None => true | Some _ => false end)
                (seq 256 744) = true) by (vm_compute; reflexivity).
  assert (Hsome : forall v r, is_some v r = true -> r = Some v)
    by (intros v [v'|] H; [apply Z.eqb_eq in H; subst; reflexivity | discriminate]).
  split.
  - intros Hn. rewrite forallb_forall in Hok.
    specialize (Hok (Z.to_nat n) ltac:(apply in_seq; lia)).
    rewrite Z2Nat.id in Hok by lia.
    repeat rewrite andb_true_iff in Hok. destruct Hok as [[[H1 H2] H3] H4].
    repeat split; apply Hsome; assumption.
  - intros Hn. rewrite forallb_forall in Hno.
    specialize (Hno (Z.to_nat n) ltac:(apply in_seq; lia)).
    rewrite Z2Nat.id in Hno by lia.
    destruct (parse_byte (dec_spelling n)); [discriminate | reflexivity].
Qed.

(** ** [sbl_autobaud] *)

Lemma autobaud_loop_scan t : forall n fuel w p,
  n = Z.to_nat ((t - w + 19) / 20) -> (n < fuel)%nat ->
  autobaud_loop fuel w t p
  = let (o, rest) := ack_only_scan n (inp p) in
    let (r, e) := outcome_ret o (errno p) in
    (r, mkPort rest (wlog p) e).
Proof.
  induction n as [|n IH]; intros fuel w p Hn Hf;
    (destruct fuel as [|fuel]; [lia|]); cbn [autobaud_loop].
  - assert (Hle : t <= w).
    { assert ((t - w + 19) / 20 <= 0) by lia. Z.div_mod_to_equations. lia. }
    replace (w <? t) with false by (symmetry; apply Z.ltb_ge; lia).
    destruct p; reflexivity.
  - assert (Hlt : w < t).
    { assert (0 < (t - w + 19) / 20) by lia. Z.div_mod_to_equations. lia. }
    replace (w <? t) with true by (symmetry; apply Z.ltb_lt; lia).
    pose proof (slices_step t w n Hn) as Hn'.
    unfold bind, serial_read_timeout.
    destruct p as [evs wl er]; cbn [inp wlog errno].
    destruct evs as [|[e'| |b] r]; cbv beta iota zeta.
    + rewrite (IH fuel (w + 20)) by lia. cbn [inp].
      destruct n; reflexivity.
    + reflexivity.
    + rewrite (IH fuel (w + 20)) by lia. reflexivity.
    + replace (1 <=? 0) with false by reflexivity. cbv iota.
      replace (1 <? 0) with false by reflexivity.
      replace (1 =? 1) with true by reflexivity.
      cbn [ack_only_scan].
      change 204 with SBL_ACK.
      destruct (b =? SBL_ACK); [reflexivity|].
      rewrite (IH fuel (w + 20)) by lia. reflexivity.
Qed.

(** [sbl_autobaud timeout_ms] first writes [0x55] twice, as two separate
    one-byte writes; when both succeed (as the model's writes do), it scans the next [ceil(timeout_ms / 20)] poll slices:
    the first [0xCC] gives 0, a read error gives -1 with the read's errno,
    and with no [0xCC] in the budget it gives -1 with [ETIMEDOUT]; unlike
    [sbl_wait_ack], a NACK byte [0x33] is ignored like any other noise. *)
Theorem autobaud_handshake timeout_ms p :
  sbl_autobaud timeout_ms p
  = let (o, rest) := ack_only_scan (slices timeout_ms) (inp p) in
    let (r, e) := outcome_ret o (errno p) in
    (r, mkPort rest (wlog p ++ [[85]; [85]]) e).
Proof.
  assert (Hb : autobaud_burst 2 p = (0, mkPort (inp p) (wlog p ++ [[85]; [85]]) (errno p)))
    by (destruct p; cbn; rewrite <- app_assoc; reflexivity).
  unfold sbl_autobaud, bind at 1. rewrite Hb.
  replace (0 <? 0) with false by reflexivity.
  rewrite (autobaud_loop_scan timeout_ms (slices timeout_ms)); cbn [inp wlog errno].
  - reflexivity.
  - unfold slices. f_equal. f_equal. lia.
  - unfold slices. destruct (Z.le_gt_cases timeout_ms 0).
    + assert ((timeout_ms + 19) / 20 <= 0) by (Z.div_mod_to_equations; lia). lia.
    + assert ((timeout_ms + 19) / 20 <= timeout_ms) by (Z.div_mod_to_equations; lia). lia.
Qed.

(** ** [sbl_autobaud_scan] *)

Lemma open_configure_supported h b p :
  serial_open_configure h b = Some p -> baud_to_speed_t b <> 0 /\ open_line h b = Some p.
Proof.
  unfold serial_open_configure. destruct (open_line h b) as [q|]; [|discriminate].
  destruct (Z.eqb_spec (baud_to_speed_t b) 0); [discriminate|]. intros [= ->]. auto.
Qed.

Lemma autobaud_scan_loop_spec h t found : forall bauds,
  let (r, found') := autobaud_scan_loop h bauds t found in
  (r = 0 /\ exists pre post p, bauds = pre ++ found' :: post
     /\ serial_open_configure h found' = Some p /\ fst (sbl_autobaud t p) = 0
     /\ forall b q, In b pre -> serial_open_configure h b = Some q -> fst (sbl_autobaud t q) <> 0)
  \/ (r = -1 /\ found' = found
      /\ forall b q, In b bauds -> serial_open_configure h b = Some q -> fst (sbl_autobaud t q) <> 0).
Proof.
  induction bauds as [|b0 rest IH]; cbn [autobaud_scan_loop].
  - right. split; [reflexivity | split; [reflexivity | intros b q []]].
  - assert (Hrest : forall pre post f, rest = pre ++ f :: post -> (forall b q, In b pre ->
              serial_open_configure h b = Some q -> fst (sbl_autobaud t q) <> 0) ->
              (forall q, serial_open_configure h b0 = Some q -> fst (sbl_autobaud t q) <> 0) ->
              b0 :: rest = (b0 :: pre) ++ f :: post /\ (forall b q, In b (b0 :: pre) ->
              serial_open_configure h b = Some q -> fst (sbl_autobaud t q) <> 0)).
    { intros pre post f -> Hpre Hb0. split; [reflexivity|].
      intros b q [<- | Hin]; [apply Hb0 | apply Hpre; exact Hin]. }
    destruct (serial_open_configure h b0) as [p0|] eqn:Ho.
    + destruct (Z.eqb_spec (fst (sbl_autobaud t p0)) 0) as [Hok|Hko].
      * left. split; [reflexivity|]. exists [], rest, p0. repeat split; auto.
      * destruct (autobaud_scan_loop h rest t found) as [r f].
        destruct IH as [[Hr [pre [post [p [Hs [Hp [Ha Hpre]]]]]]] | [Hr [Hf Hall]]].
        -- left. split; [exact Hr|]. exists (b0 :: pre), post, p.
           destruct (Hrest pre post f Hs Hpre) as [Hs' Hpre'];
             [intros q Hq; injection Hq as <-; exact Hko|].
           repeat split; auto.
        -- right. split; [exact Hr | split; [exact Hf|]].
           intros b q [<- | Hin] Hq; [rewrite Ho in Hq; injection Hq as <-; exact Hko|].
           exact (Hall b q Hin Hq).
    + destruct (autobaud_scan_loop h rest t found) as [r f].
      destruct IH as [[Hr [pre [post [p [Hs [Hp [Ha Hpre]]]]]]] | [Hr [Hf Hall]]].
      * left. split; [exact Hr|]. exists (b0 :: pre), post, p.
        destruct (Hrest pre post f Hs Hpre) as [Hs' Hpre'];
          [intros q Hq; discriminate|].
        repeat split; auto.
      * right. split; [exact Hr | split; [exact Hf|]].
        intros b q [<- | Hin] Hq; [rewrite Ho in Hq; discriminate|].
        exact (Hall b q Hin Hq).
Qed.

(** [sbl_autobaud_scan] either succeeds with the first baud rate of the list
    that is a supported [termios] speed, opens, and gets an ACK from
    [sbl_autobaud] (every earlier rate failed to open or to get one), and
    stores it in [baud_ok]; or it fails with -1, leaves [baud_ok] alone, and
    no rate of the list both opened and got an ACK. *)
Theorem autobaud_scan_first_answering h bauds timeout_ms baud_ok :
  let (r, found) := sbl_autobaud_scan h bauds timeout_ms baud_ok in
  (r = 0 /\ exists pre post p, bauds = pre ++ found :: post
     /\ baud_to_speed_t found <> 0 /\ open_line h found = Some p
     /\ fst (sbl_autobaud timeout_ms p) = 0
     /\ forall b q, In b pre -> serial_open_configure h b = Some q ->
                    fst (sbl_autobaud timeout_ms q) <> 0)
  \/ (r = -1 /\ found = baud_ok
      /\ forall b q, In b bauds -> serial_open_configure h b = Some q ->
                     fst (sbl_autobaud timeout_ms q) <> 0).
Proof.
  unfold sbl_autobaud_scan. destruct bauds as [|b0 rest].
  - right. split; [reflexivity | split; [reflexivity | intros b q []]].
  - pose proof (autobaud_scan_loop_spec h timeout_ms baud_ok (b0 :: rest)) as H.
    destruct (autobaud_scan_loop h (b0 :: rest) timeout_ms baud_ok) as [r f].
    destruct H as [[Hr [pre [post [p [Hs [Hp [Ha Hpre]]]]]]] | Hf]; [left | right; exact Hf].
    destruct (open_configure_supported h f p Hp) as [Hsup Hop].
    split; [exact Hr|]. exists pre, post, p. repeat split; auto.
Qed.

(** ** More of [sbl_send_cmd] and the convenience commands *)

Lemma wait_ack_scan timeout_ms p :
  sbl_wait_ack timeout_ms p
  = let (o, rest) := ack_scan (slices timeout_ms) (inp p) in
    let (r, e) := outcome_ret o (errno p) in
    (r, mkPort rest (wlog p) e).
Proof.
  unfold sbl_wait_ack, slices.
  apply wait_ack_loop_scan.
  - f_equal. f_equal. lia.
  - destruct (Z.le_gt_cases timeout_ms 0).
    + assert ((timeout_ms + 19) / 20 <= 0) by (Z.div_mod_to_equations; lia). lia.
    + assert ((timeout_ms + 19) / 20 <= timeout_ms) by (Z.div_mod_to_equations; lia). lia.
Qed.

(** A command sent without a response buffer ([out_max = 0]: PING, RESET,
    DOWNLOAD, SECTOR_ERASE, SEND_DATA) writes its frame once and, when that
    write succeeds (as the model's writes do), returns
    what the ACK handshake gives: 0 on ACK, -1 with [EPROTO] on NACK, with
    [ETIMEDOUT] on timeout, with the read's errno on a read error; nothing
    after the ACK or NACK byte is read. *)
Theorem send_cmd_no_response data timeout_ms p :
  (1 <= length data <= 253)%nat ->
  sbl_send_cmd data 0 timeout_ms p
  = let (o, rest) := ack_scan (slices timeout_ms) (inp p) in
    let (r, e) := outcome_ret o (errno p) in
    ((r, []), mkPort rest (wlog p ++ [code_frame data]) e).
Proof.
  intros H. unfold sbl_send_cmd.
  replace ((Z.of_nat (length data) =? 0) || (Z.of_nat (length data) >? 253)) with false
    by (symmetry; apply orb_false_iff; split; lia).
  unfold bind at 1, serial_write_all. cbv beta.
  replace (Z.of_nat (length ((Z.of_nat (length data) + 2) mod 256 :: checksum_sum data :: data)) <? 0)
    with false by (symmetry; apply Z.ltb_ge; lia).
  unfold bind at 1. rewrite wait_ack_scan. cbn [inp wlog errno].
  destruct (ack_scan (slices timeout_ms) (inp p)) as [o rest].
  destruct o; reflexivity.
Qed.

Lemma send_cmd_no_response_witness :
  (1 <= length [CMD_PING] <= 253)%nat /\
  sbl_send_cmd [CMD_PING] 0 500 (fresh_port [EvByte 0; EvByte SBL_NACK; EvByte SBL_ACK])
  = let p := fresh_port [EvByte 0; EvByte SBL_NACK; EvByte SBL_ACK] in
    let (o, rest) := ack_scan (slices 500) (inp p) in
    let (r, e) := outcome_ret o (errno p) in
    ((r, []), mkPort rest (wlog p ++ [code_frame [CMD_PING]]) e).
Proof.
  split; [cbn; lia|].
  apply send_cmd_no_response. cbn; lia.
Defined.

(** A response frame whose checksum byte does not match its payload is
    still acknowledged ([[0x00; 0xCC]] is written); when that write
    succeeds (as the model's writes do), [sbl_send_cmd] then fails with -1
    and [errno = EPROTO]. *)
Theorem send_cmd_bad_checksum data om t payload c r w e :
  (1 <= length data <= 253)%nat -> 0 < t -> 0 < om ->
  Z.of_nat (length payload) + 2 < 256 -> Z.of_nat (length payload) <= om ->
  c <> sum_bytes payload mod 256 ->
  sbl_send_cmd data om t
    (mkPort (EvByte SBL_ACK :: EvByte (Z.of_nat (length payload) + 2) :: EvByte c
             :: map EvByte payload ++ r) w e)
  = ((-1, []), mkPort r (w ++ [code_frame data; [0; SBL_ACK]]) EPROTO).
Proof.
  intros Hd Ht Hom Hsz Hp Hc. unfold sbl_send_cmd.
  replace ((Z.of_nat (length data) =? 0) || (Z.of_nat (length data) >? 253)) with false
    by (symmetry; apply orb_false_iff; split; lia).
  unfold bind at 1, serial_write_all. cbn [inp wlog errno]. cbv beta.
  replace (Z.of_nat (length ((Z.of_nat (length data) + 2) mod 256 :: checksum_sum data :: data)) <? 0)
    with false by (symmetry; apply Z.ltb_ge; lia).
  unfold bind at 1. rewrite wait_ack_first_ack by exact Ht. cbv beta iota.
  replace (0 =? 0) with true by reflexivity.
  replace (om =? 0) with false by (symmetry; apply Z.eqb_neq; lia). cbn [negb].
  unfold bind at 1. rewrite read_exact_one. cbv beta iota zeta. cbn [hd].
  replace ((1 >? 0) && negb (Z.of_nat (length payload) + 2 =? 0)) with true
    by (symmetry; apply andb_true_iff; split; [reflexivity|]; apply negb_true_iff, Z.eqb_neq; lia).
  unfold bind at 1. rewrite read_exact_one. cbv beta iota. cbn [hd].
  replace (1 <=? 0) with false by reflexivity.
  replace ((Z.of_nat (length payload) + 2 - 2) mod U64) with (Z.of_nat (length payload))
    by (rewrite Z.mod_small by (unfold U64; simpl; lia); lia).
  replace (Z.of_nat (length payload) >? om) with false
    by (symmetry; rewrite Z.gtb_ltb; apply Z.ltb_ge; lia).
  unfold bind at 1. rewrite Nat2Z.id, read_exact_bytes. cbv beta iota.
  replace (1 <=? 0) with false by reflexivity.
  unfold bind at 1, serial_write_all. cbn [inp wlog errno length Z.of_nat]. cbv beta.
  replace (2 <? 0) with false by reflexivity.
  rewrite checksum_sum_spec.
  replace (sum_bytes payload mod 256 =? c) with false
    by (symmetry; apply Z.eqb_neq; congruence).
  cbn [negb]. unfold bind, set_errno, ret. cbn [inp wlog errno].
  rewrite <- app_assoc. reflexivity.
Qed.

Lemma send_cmd_bad_checksum_witness :
  sbl_send_cmd [CMD_GET_STATUS] 1 500
    (mkPort (EvByte SBL_ACK :: EvByte (Z.of_nat (length [64]) + 2) :: EvByte 65
             :: map EvByte [64] ++ []) [] 0)
  = ((-1, []), mkPort [] ([] ++ [code_frame [CMD_GET_STATUS]; [0; SBL_ACK]]) EPROTO).
Proof.
  apply send_cmd_bad_checksum; cbn; lia.
Defined.

(** After the ACK of GET_STATUS, if no response frame comes (the size byte
    times out, or is 0), [sbl_get_status] still returns 0 and leaves the
    caller's status variable as it was. *)
Theorem get_status_no_frame t status ev r w e :
  0 < t -> ev = EvTimeout \/ ev = EvByte 0 ->
  sbl_get_status t status (mkPort (EvByte SBL_ACK :: ev :: r) w e)
  = ((0, status), mkPort r (w ++ [code_frame [CMD_GET_STATUS]]) e).
Proof.
  intros Ht Hev.
  assert (Hs : sbl_send_cmd [CMD_GET_STATUS] 1 t (mkPort (EvByte SBL_ACK :: ev :: r) w e)
               = ((0, []), mkPort r (w ++ [code_frame [CMD_GET_STATUS]]) e)).
  { unfold sbl_send_cmd. change (Z.of_nat (length [CMD_GET_STATUS])) with 1.
    replace ((1 =? 0) || (1 >? 253)) with false by reflexivity.
    unfold bind at 1, serial_write_all. cbn [inp wlog errno]. cbv beta.
    replace (Z.of_nat (length ((1 + 2) mod 256 :: checksum_sum [CMD_GET_STATUS] :: [CMD_GET_STATUS])) <? 0)
      with false by reflexivity.
    unfold bind at 1. rewrite wait_ack_first_ack by exact Ht. cbv beta iota.
    replace (0 =? 0) with true by reflexivity.
    replace (1 =? 0) with false by reflexivity. cbn [negb].
    destruct Hev as [-> | ->]; reflexivity. }
  unfold sbl_get_status, bind. rewrite Hs. reflexivity.
Qed.

Lemma get_status_no_frame_witness :
  (0 < 500 /\ (EvTimeout = EvTimeout \/ EvTimeout = EvByte 0)) /\
  sbl_get_status 500 255 (mkPort (EvByte SBL_ACK :: EvTimeout :: []) [] 0)
  = ((0, 255), mkPort [] ([] ++ [code_frame [CMD_GET_STATUS]]) 0).
Proof.
  split; [split; [lia | left; reflexivity]|].
  apply get_status_no_frame; [lia | left; reflexivity].
Defined.

(** A well-formed response of fewer than 4 bytes is treated differently by
    the two 4-byte queries: [sbl_get_chip_id] returns 0 and leaves the
    caller's chip id as it was, while [sbl_crc32] returns -1 with
    [errno = EPROTO] and leaves the caller's CRC as it was.  Both acknowledge
    the response; the outcomes are those of a successful acknowledgement
    write (the model's writes succeed). *)
Theorem short_response_chip_id_vs_crc32 t id0 addr len rep crc0 payload r w e :
  0 < t -> (length payload < 4)%nat ->
  let evs := EvByte SBL_ACK :: EvByte (Z.of_nat (length payload) + 2)
             :: EvByte (sum_bytes payload mod 256) :: map EvByte payload ++ r in
  sbl_get_chip_id t id0 (mkPort evs w e)
  = ((0, id0), mkPort r (w ++ [code_frame [CMD_GET_CHIP_ID]; [0; SBL_ACK]]) e)
  /\ sbl_crc32 addr len rep t crc0 (mkPort evs w e)
  = ((-1, crc0), mkPort r (w ++ [code_frame (CMD_CRC32 :: be32 addr ++ be32 len ++ be32 rep);
                                  [0; SBL_ACK]]) EPROTO).
Proof.
  intros Ht Hl evs. subst evs. split.
  - unfold sbl_get_chip_id, bind at 1.
    rewrite (send_cmd_response _ 4 t payload) by (cbn; lia).
    replace (Z.of_nat (length payload) <? 0) with false by (symmetry; apply Z.ltb_ge; lia).
    replace (Z.of_nat (length payload) =? 4) with false by (symmetry; apply Z.eqb_neq; lia).
    reflexivity.
  - unfold sbl_crc32, bind at 1.
    rewrite (send_cmd_response _ 4 t payload) by (cbn; lia).
    replace (Z.of_nat (length payload) <? 0) with false by (symmetry; apply Z.ltb_ge; lia).
    replace (Z.of_nat (length payload) =? 4) with false by (symmetry; apply Z.eqb_neq; lia).
    reflexivity.
Qed.

Lemma short_response_chip_id_vs_crc32_witness :
  (0 < 500 /\ (length [7; 9] < 4)%nat) /\
  let evs := EvByte SBL_ACK :: EvByte (Z.of_nat (length [7; 9]) + 2)
             :: EvByte (sum_bytes [7; 9] mod 256) :: map EvByte [7; 9] ++ [] in
  sbl_get_chip_id 500 0 (mkPort evs [] 0)
  = ((0, 0), mkPort [] ([] ++ [code_frame [CMD_GET_CHIP_ID]; [0; SBL_ACK]]) 0)
  /\ sbl_crc32 0 4096 1 500 0 (mkPort evs [] 0)
  = ((-1, 0), mkPort [] ([] ++ [code_frame (CMD_CRC32 :: be32 0 ++ be32 4096 ++ be32 1);
                                 [0; SBL_ACK]]) EPROTO).
Proof.
  split; [split; [lia | cbn; lia]|].
  apply short_response_chip_id_vs_crc32; [lia | cbn; lia].
Defined.

(** ** Big-endian fields of DOWNLOAD, SECTOR_ERASE and CRC32 *)

Lemma land_255_div x k :
  0 <= k -> Z.land (Z.shiftr x k) 255 = (x / 2 ^ k) mod 256.
Proof.
  intros Hk. change 255 with (Z.ones 8). rewrite Z.land_ones by lia.
  rewrite Z.shiftr_div_pow2 by lia. reflexivity.
Qed.

(** The four bytes [be32 x] that the command builders write for a
    [uint32_t] field are bytes, and read back big-endian they give
    [x mod 2^32]: the encoding loses nothing of a 32-bit value. *)
Theorem be32_round_trip x :
  be_decode (be32 x) = x mod U32 /\ Forall (fun b => 0 <= b < 256) (be32 x).
Proof.
  assert (Hl : Z.land x 255 = x mod 256)
    by (change 255 with (Z.ones 8); rewrite Z.land_ones by lia; reflexivity).
  unfold be_decode, be32. cbn [fold_left].
  rewrite !land_255_div, Hl by lia.
  change (2 ^ 24) with (256 * 256 * 256). change (2 ^ 16) with (256 * 256).
  change (2 ^ 8) with 256.
  split.
  - change U32 with (256 * (256 * (256 * 256))).
    rewrite Z.rem_mul_r, Z.rem_mul_r, Z.rem_mul_r, !Z.div_div by lia.
    ring.
  - repeat constructor; apply Z.mod_pos_bound; lia.
Qed.

(** ** The command sequence of a successful [sbl_program_binary] *)

Lemma erase_loop_success fuel base el ps : forall a p p',
  0 < ps -> 0 <= a -> (base + el) mod U32 + ps <= U32 ->
  erase_loop fuel a base el ps p = (0, p') ->
  cmd_payloads CMD_SECTOR_ERASE (wlog p')
  = cmd_payloads CMD_SECTOR_ERASE (wlog p)
    ++ map be32 (pages (Z.to_nat (((base + el) mod U32 - a + ps - 1) / ps)) a ps).
Proof.
  set (E := (base + el) mod U32).
  induction fuel as [|fuel IH]; intros a p p' Hps Ha HE H; [discriminate H|].
  cbn [erase_loop] in H. fold E in H.
  destruct (Z.ltb_spec a E) as [Hlt|Hge].
  2:{ injection H as <-.
      replace (Z.to_nat ((E - a + ps - 1) / ps)) with 0%nat
        by (assert ((E - a + ps - 1) / ps < 1)
              by (apply Z.div_lt_upper_bound; lia); lia).
      rewrite app_nil_r. reflexivity. }
  unfold bind in H.
  assert (E1 : cmd_payloads CMD_SECTOR_ERASE (wlog (snd (sbl_sector_erase a 5000 p)))
               = cmd_payloads CMD_SECTOR_ERASE (wlog p) ++ [be32 a])
    by (rewrite sector_erase_wlog; apply send_cmd_same; simpl; lia).
  destruct (sbl_sector_erase a 5000 p) as [r p1]; simpl in E1.
  destruct (negb (r =? 0)); [discriminate H|].
  pose proof (get_status_other CMD_SECTOR_ERASE 1000 0 p1 ltac:(discriminate)) as E2.
  destruct (sbl_get_status 1000 0 p1) as [[g st] p2]; simpl in E2.
  destruct (negb (g =? 0)); [discriminate H|].
  rewrite Z.mod_small in H by lia.
  rewrite (IH (a + ps) p2 p' Hps ltac:(lia) HE H), E2, E1, <- app_assoc.
  assert (Hk : (E - a + ps - 1) / ps = (E - (a + ps) + ps - 1) / ps + 1).
  { replace (E - a + ps - 1) with ((E - (a + ps) + ps - 1) + 1 * ps) by ring.
    apply Z.div_add; lia. }
  assert (0 <= (E - (a + ps) + ps - 1) / ps) by (apply Z.div_pos; lia).
  rewrite Hk, Z2Nat.inj_add by lia. rewrite Nat.add_comm. reflexivity.
Qed.

(** For [0 < page_size <= flash_size] ([uint32_t] values), a [base_addr]
    and an image shorter than [2^64 - 4] bytes: when [sbl_program_binary]
    succeeds, the pages it erased are exactly
    [base_addr], [base_addr + page_size], ... below
    [(base_addr + erase_len) mod 2^32], in that order, and it sent exactly
    one DOWNLOAD, announcing [base_addr] and the image length rounded up to
    a multiple of 4. *)
Theorem program_binary_command_sequence flash_size page_size img base_addr p p' :
  0 < page_size <= flash_size -> flash_size < U32 -> 0 <= base_addr ->
  Z.of_nat (length img) + 4 <= U64 ->
  sbl_program_binary flash_size page_size img base_addr p = (Some 0, p') ->
  let il := Z.of_nat (length img) in
  let E := (base_addr + erase_len_of flash_size page_size base_addr il) mod U32 in
  cmd_payloads CMD_SECTOR_ERASE (wlog p')
  = cmd_payloads CMD_SECTOR_ERASE (wlog p)
    ++ map be32 (pages (Z.to_nat ((E - base_addr + page_size - 1) / page_size)) base_addr page_size)
  /\ cmd_payloads CMD_DOWNLOAD (wlog p')
     = cmd_payloads CMD_DOWNLOAD (wlog p) ++ [be32 base_addr ++ be32 (round_up il 4 mod U32)].
Proof.
  intros Hps Hfs Hb Hu H il E.
  destruct (total_len_props il (Nat2Z.is_nonneg _) Hu) as [Hrt _].
  assert (HE : E + page_size <= U32).
  { pose proof (cap_erase_len_bound flash_size page_size base_addr
                  (round_erase_len page_size il)) as Hc.
    fold (erase_len_of flash_size page_size base_addr il) in Hc. fold E in Hc.
    rewrite (Z.mod_small (flash_size - page_size)) in Hc by (unfold U32 in *; lia). lia. }
  unfold sbl_program_binary in H.
  destruct (page_size =? 0); [discriminate H|].
  destruct (negb (base_addr mod page_size =? 0)); [discriminate H|].
  cbv beta zeta in H. unfold bind in H. fold il in H.
  pose proof (erase_loop_success (S (length (inp p))) base_addr
                (erase_len_of flash_size page_size base_addr il) page_size base_addr p)
    as S1.
  pose proof (erase_loop_other CMD_DOWNLOAD (S (length (inp p))) base_addr base_addr
                (erase_len_of flash_size page_size base_addr il) page_size p
                ltac:(discriminate) ltac:(discriminate)) as D1.
  destruct (erase_loop _ base_addr base_addr _ page_size p) as [e p1]; simpl in D1.
  destruct (negb (e =? 0)) eqn:He; [discriminate H|].
  apply negb_false_iff, Z.eqb_eq in He. subst e.
  specialize (S1 p1 ltac:(lia) Hb HE eq_refl). fold E in S1.
  pose proof (download_other CMD_SECTOR_ERASE base_addr (total_len_of il mod U32) 1000 p1
                ltac:(discriminate)) as S2.
  assert (D2 : cmd_payloads CMD_DOWNLOAD (wlog (snd (sbl_download base_addr (total_len_of il mod U32) 1000 p1)))
               = cmd_payloads CMD_DOWNLOAD (wlog p1) ++ [be32 base_addr ++ be32 (total_len_of il mod U32)])
    by (rewrite download_wlog; apply send_cmd_same; rewrite length_app; cbn; lia).
  destruct (sbl_download base_addr (total_len_of il mod U32) 1000 p1) as [d p2]; cbn [snd] in S2, D2.
  destruct (negb (d =? 0)); [discriminate H|].
  pose proof (get_status_other CMD_SECTOR_ERASE 500 0 p2 ltac:(discriminate)) as S3.
  pose proof (get_status_other CMD_DOWNLOAD 500 0 p2 ltac:(discriminate)) as D3.
  destruct (sbl_get_status 500 0 p2) as [[g st] p3]; simpl in S3, D3.
  destruct (negb (g =? 0)); [discriminate H|].
  destruct (negb (st =? 64)); [discriminate H|].
  pose proof (transfer_loop_other CMD_SECTOR_ERASE (S (Z.to_nat (total_len_of il))) img il
                (total_len_of il) 0 p3 ltac:(discriminate) ltac:(discriminate)) as S4.
  pose proof (transfer_loop_other CMD_DOWNLOAD (S (Z.to_nat (total_len_of il))) img il
                (total_len_of il) 0 p3 ltac:(discriminate) ltac:(discriminate)) as D4.
  destruct (transfer_loop _ img il (total_len_of il) 0 p3) as [t p4]; simpl in S4, D4.
  destruct (negb (t =? 0)); [discriminate H|].
  pose proof (reset_other CMD_SECTOR_ERASE 1000 p4 ltac:(discriminate)) as S5.
  pose proof (reset_other CMD_DOWNLOAD 1000 p4 ltac:(discriminate)) as D5.
  destruct (sbl_reset 1000 p4) as [rr p5]; simpl in S5, D5.
  injection H as <-.
  split.
  - rewrite S5, S4, S3, S2. exact S1.
  - rewrite D5, D4, D3, D2, D1, Hrt. reflexivity.
Qed.

Lemma program_binary_command_sequence_witness :
  let img := repeat 7 517 in
  let p0 := fresh_port (device_script [COMMAND_RET_SUCCESS] 3) in
  let r := sbl_program_binary 131072 4096 img 0 p0 in
  (0 < 4096 <= 131072 /\ 131072 < U32 /\ 0 <= 0 /\ Z.of_nat (length img) + 4 <= U64
   /\ r = (Some 0, snd r)) /\
  let il := Z.of_nat (length img) in
  let E := (0 + erase_len_of 131072 4096 0 il) mod U32 in
  cmd_payloads CMD_SECTOR_ERASE (wlog (snd r))
  = cmd_payloads CMD_SECTOR_ERASE (wlog p0)
    ++ map be32 (pages (Z.to_nat ((E - 0 + 4096 - 1) / 4096)) 0 4096)
  /\ cmd_payloads CMD_DOWNLOAD (wlog (snd r))
     = cmd_payloads CMD_DOWNLOAD (wlog p0) ++ [be32 0 ++ be32 (round_up il 4 mod U32)].
Proof.
  intros img p0 r.
  assert (Hu : Z.of_nat (length img) + 4 <= U64)
    by (unfold U64, img; rewrite repeat_length; simpl; lia).
  assert (Hr : r = (Some 0, snd r)) by (vm_compute; reflexivity).
  assert (H1 : 0 < 4096 <= 131072) by lia.
  assert (H2 : 131072 < U32) by (unfold U32; lia).
  assert (H3 : 0 <= 0) by lia.
  split; [exact (conj H1 (conj H2 (conj H3 (conj Hu Hr))))|].
  exact (program_binary_command_sequence 131072 4096 img 0 p0 (snd r)
           H1 H2 H3 Hu Hr).
Defined.

(** ** The command-line front end *)

Lemma main_opened h argv p :
  (4 <= length argv)%nat ->
  serial_open_configure h (atoi (arg argv 2)) = Some p ->
  main h argv = match main_command h argv (nth 3 argv ""%string) p with
                | (None, _) => None
                | (Some rc, p') => Some (rc, Some p')
                end.
Proof.
  intros Hl Ho. unfold main.
  replace (length argv <? 4)%nat with false by (symmetry; apply Nat.ltb_ge; exact Hl).
  cbv zeta. rewrite Ho. reflexivity.
Qed.

Ltac dispatch :=
  unfold main_command;
  repeat match goal with
         | |- context [String.eqb ?a ?b] =>
             let v := eval vm_compute in (String.eqb a b) in change (String.eqb a b) with v
         end;
  cbv iota beta.


Lemma full_erase_loop_success h fuel last ps : forall a p p',
  0 < ps -> 0 <= a -> last + ps <= U32 ->
  full_erase_loop h fuel a last ps p = (0, p') ->
  cmd_payloads CMD_SECTOR_ERASE (wlog p')
  = cmd_payloads CMD_SECTOR_ERASE (wlog p)
    ++ map be32 (pages (Z.to_nat ((last - a + ps - 1) / ps)) a ps).
Proof.
  induction fuel as [|fuel IH]; intros a p p' Hps Ha HE H; [discriminate H|].
  cbn [full_erase_loop] in H.
  destruct (Z.ltb_spec a last) as [Hlt|Hge].
  2:{ injection H as <-.
      replace (Z.to_nat ((last - a + ps - 1) / ps)) with 0%nat
        by (assert ((last - a + ps - 1) / ps < 1)
              by (apply Z.div_lt_upper_bound; lia); lia).
      rewrite app_nil_r. reflexivity. }
  unfold bind in H.
  assert (E1 : cmd_payloads CMD_SECTOR_ERASE (wlog (snd (sbl_sector_erase a 2000 p)))
               = cmd_payloads CMD_SECTOR_ERASE (wlog p) ++ [be32 a])
    by (rewrite sector_erase_wlog; apply send_cmd_same; simpl; lia).
  destruct (sbl_sector_erase a 2000 p) as [r p1]; simpl in E1.
  destruct (negb (r =? 0)); [discriminate H|].
  pose proof (get_status_other CMD_SECTOR_ERASE 500 (junk h) p1 ltac:(discriminate)) as E2.
  destruct (sbl_get_status 500 (junk h) p1) as [[g st] p2]; simpl in E2.
  destruct (st =? 64); [|discriminate H].
  rewrite Z.mod_small in H by lia.
  rewrite (IH (a + ps) p2 p' Hps ltac:(lia) HE H), E2, E1, <- app_assoc.
  assert (Hk : (last - a + ps - 1) / ps = (last - (a + ps) + ps - 1) / ps + 1).
  { replace (last - a + ps - 1) with ((last - (a + ps) + ps - 1) + 1 * ps) by ring.
    apply Z.div_add; lia. }
  assert (0 <= (last - (a + ps) + ps - 1) / ps) by (apply Z.div_pos; lia).
  rewrite Hk, Z2Nat.inj_add by lia. rewrite Nat.add_comm. reflexivity.
Qed.

Lemma arg_u32_range s : 0 <= arg_u32 s < U32.
Proof. unfold arg_u32, U32. apply Z.mod_pos_bound. lia. Qed.

Lemma scan_digits_nonneg b s : forall acc n, 0 <= acc -> 0 <= fst (scan_digits b s acc n).
Proof.
  induction s as [|c r IH]; intros acc n Ha; simpl; [exact Ha|].
  destruct (Z.ltb_spec (digit_value c) b) as [Hd|]; [|exact Ha].
  apply IH.
  assert (0 <= digit_value c)
    by (unfold digit_value;
        repeat match goal with |- context [(?x <=? ?y)] => destruct (Z.leb_spec x y) end;
        simpl; lia).
  nia.
Qed.

Lemma strto_scan_nonneg s b : 0 <= snd (fst (strto_scan s b)).
Proof.
  unfold strto_scan.
  destruct (match skipn (count_spaces s) s with
            | [] => _ | _ :: _ => _ end) as [[neg s2] k1].
  destruct (match s2 with [] => _ | _ :: _ => _ end) as [[b' s3] k2].
  pose proof (scan_digits_nonneg b' s3 0 0 ltac:(lia)) as Hv.
  destruct (scan_digits b' s3 0 0) as [v nd]; simpl in Hv.
  destruct (nd =? 0)%nat; simpl; lia.
Qed.

Lemma strtoul_range s b : 0 <= fst (strtoul s b) <= ULONG_MAX.
Proof.
  unfold strtoul. pose proof (strto_scan_nonneg s b) as Hv.
  destruct (strto_scan s b) as [[neg v] e]; simpl in Hv |- *.
  unfold ULONG_MAX, U64 in *.
  destruct (Z.gtb_spec v (2 ^ 64 - 1)); [lia|].
  destruct neg; [|lia].
  pose proof (Z.mod_pos_bound (- v) (2 ^ 64) ltac:(lia)). lia.
Qed.

Lemma parse_byte_range s v : parse_byte s = Some v -> 0 <= v <= 255.
Proof.
  unfold parse_byte. pose proof (strtoul_range s 0) as Hr.
  destruct (strtoul s 0) as [x e]; simpl in Hr.
  destruct (_ || _ || _) eqn:Hb; [discriminate|]. intros [= <-].
  apply orb_false_iff in Hb as [_ Hb]. rewrite Z.gtb_ltb, Z.ltb_ge in Hb. lia.
Qed.

Lemma parse_bytes_some args buf :
  parse_bytes args = Some buf ->
  length buf = length args /\ Forall (fun v => 0 <= v <= 255) buf.
Proof.
  revert buf; induction args as [|a r IH]; intros buf H; simpl in H.
  - injection H as <-. split; [reflexivity | constructor].
  - destruct (parse_byte a) as [v|] eqn:Ha; [|discriminate].
    destruct (parse_bytes r) as [vs|]; [|discriminate]. injection H as <-.
    destruct (IH vs eq_refl) as [Hl Hf]. split; [simpl; congruence|].
    constructor; [exact (parse_byte_range a v Ha) | exact Hf].
Qed.

Lemma send_data_bytes_spec args :
  send_data_bytes args
  = if forallb (fun a => arg_u32 a <=? 255) args then Some (map arg_u32 args) else None.
Proof.
  induction args as [|a r IH]; [reflexivity|]. simpl. rewrite IH. unfold arg_u32.
  destruct (Z.leb_spec (fst (strtoul a 0) mod U32) 255).
  - replace (fst (strtoul a 0) mod U32 >? 255) with false by (symmetry; rewrite Z.gtb_ltb; apply Z.ltb_ge; lia).
    simpl. destruct (forallb _ r); reflexivity.
  - replace (fst (strtoul a 0) mod U32 >? 255) with true by (symmetry; apply Z.gtb_lt; lia).
    reflexivity.
Qed.


(** [main ... sbl_erase <addr>] sends exactly one SECTOR_ERASE, for the
    address [(uint32_t)strtoul(addr, NULL, 0)], and its exit code is 0 as
    soon as the command is acknowledged: the status read afterwards (even
    FLASH_FAIL, or no status at all) never changes it. *)
Theorem main_erase_exit_ignores_status h argv p :
  length argv = 5%nat -> nth 3 argv ""%string = "sbl_erase"%string ->
  serial_open_configure h (atoi (arg argv 2)) = Some p ->
  exists p',
    main h argv
    = Some (if fst (sbl_sector_erase (arg_u32 (arg argv 4)) 2000 p) =? 0 then 0 else 1, Some p')
    /\ cmd_payloads CMD_SECTOR_ERASE (wlog p')
       = cmd_payloads CMD_SECTOR_ERASE (wlog p) ++ [be32 (arg_u32 (arg argv 4))].
Proof.
  intros Hl Hc Ho. rewrite (main_opened h argv p ltac:(lia) Ho), Hc.
  dispatch. rewrite Hl. cbn [Nat.eqb negb]. unfold bind.
  assert (E1 : cmd_payloads CMD_SECTOR_ERASE
                 (wlog (snd (sbl_sector_erase (arg_u32 (arg argv 4)) 2000 p)))
               = cmd_payloads CMD_SECTOR_ERASE (wlog p) ++ [be32 (arg_u32 (arg argv 4))])
    by (rewrite sector_erase_wlog; apply send_cmd_same; simpl; lia).
  destruct (sbl_sector_erase (arg_u32 (arg argv 4)) 2000 p) as [r p1]; cbn [fst snd] in E1 |- *.
  destruct (r =? 0); cbn [negb].
  - pose proof (get_status_other CMD_SECTOR_ERASE 500 (junk h) p1 ltac:(discriminate)) as E2.
    destruct (sbl_get_status 500 (junk h) p1) as [[g st] p2]; cbn [snd] in E2.
    exists p2. split; [reflexivity | congruence].
  - exists p1. split; [reflexivity | exact E1].
Qed.

(** [main ... sbl_download <addr> <len>] sends exactly one DOWNLOAD carrying
    both arguments as 32-bit big-endian fields, and exits with 0 as soon as
    the command is acknowledged, whatever status the device reports. *)
Theorem main_download_exit_ignores_status h argv p :
  length argv = 6%nat -> nth 3 argv ""%string = "sbl_download"%string ->
  serial_open_configure h (atoi (arg argv 2)) = Some p ->
  let addr := arg_u32 (arg argv 4) in
  let len := arg_u32 (arg argv 5) in
  exists p',
    main h argv = Some (if fst (sbl_download addr len 1000 p) =? 0 then 0 else 1, Some p')
    /\ cmd_payloads CMD_DOWNLOAD (wlog p')
       = cmd_payloads CMD_DOWNLOAD (wlog p) ++ [be32 addr ++ be32 len].
Proof.
  intros Hl Hc Ho addr len. rewrite (main_opened h argv p ltac:(lia) Ho), Hc.
  dispatch. rewrite Hl. cbn [Nat.eqb negb]. unfold bind.
  assert (E1 : cmd_payloads CMD_DOWNLOAD (wlog (snd (sbl_download addr len 1000 p)))
               = cmd_payloads CMD_DOWNLOAD (wlog p) ++ [be32 addr ++ be32 len])
    by (rewrite download_wlog; apply send_cmd_same; rewrite length_app; simpl; lia).
  fold addr len.
  destruct (sbl_download addr len 1000 p) as [r p1]; cbn [fst snd] in E1 |- *.
  destruct (r =? 0); cbn [negb].
  - pose proof (get_status_other CMD_DOWNLOAD 500 (junk h) p1 ltac:(discriminate)) as E2.
    destruct (sbl_get_status 500 (junk h) p1) as [[g st] p2]; cbn [snd] in E2.
    exists p2. split; [reflexivity | congruence].
  - exists p1. split; [reflexivity | exact E1].
Qed.

Lemma program_binary_page_size_zero fs image base p :
  fst (sbl_program_binary fs 0 image base p) = None.
Proof. reflexivity. Qed.

Lemma program_binary_some fs ps image base p :
  ps <> 0 -> exists r, fst (sbl_program_binary fs ps image base p) = Some r.
Proof.
  intros Hne. unfold sbl_program_binary.
  replace (ps =? 0) with false by (symmetry; apply Z.eqb_neq; exact Hne).
  destruct (negb (base mod ps =? 0)); [eexists; reflexivity|].
  unfold bind, ret. cbv beta zeta.
  repeat match goal with
         | |- context [let (_, _) := ?m in _] => destruct m
         | |- context [match ?x with (_, _) => _ end] => destruct x
         | |- context [if ?b then _ else _] => destruct b
         end; eexists; reflexivity.
Qed.

(** [main ... sbl_program ...] ignores the result of [sbl_program_binary]:
    with a page size of 0 the run is undefined (division by zero), with any
    other page size the exit code is 0, whether programming succeeded or not. *)
Theorem main_program_exit_zero h argv p :
  length argv = 8%nat -> nth 3 argv ""%string = "sbl_program"%string ->
  serial_open_configure h (atoi (arg argv 2)) = Some p ->
  if arg_u32 (arg argv 7) =? 0 then main h argv = None
  else exists p', main h argv = Some (0, Some p').
Proof.
  intros Hl Hc Ho. rewrite (main_opened h argv p ltac:(lia) Ho), Hc.
  dispatch. rewrite Hl. cbn [Nat.eqb negb]. cbv zeta. unfold bind.
  set (image := match bin_file h (arg argv 4) with Some img => img | None => [] end).
  destruct (Z.eqb_spec (arg_u32 (arg argv 7)) 0) as [Hz|Hz].
  - rewrite Hz.
    pose proof (program_binary_page_size_zero (arg_u32 (arg argv 6)) image
                  (arg_u32 (arg argv 5)) p) as Hn.
    destruct (sbl_program_binary _ 0 image _ p) as [r p1]; cbn [fst] in Hn. subst r.
    reflexivity.
  - destruct (program_binary_some (arg_u32 (arg argv 6)) (arg_u32 (arg argv 7)) image
                (arg_u32 (arg argv 5)) p Hz) as [r Hr].
    destruct (sbl_program_binary _ _ image _ p) as [r' p1]; cbn [fst] in Hr. subst r'.
    exists p1. reflexivity.
Qed.

(** When [main ... sbl_full_erase <flash_size> <page_size>] exits with 0 and
    [0 < page_size <= flash_size], it erased exactly the pages
    [0, page_size, ...] that start below [flash_size - page_size], in order:
    the last page (CCFG) is never erased. *)
Theorem main_full_erase_pages h argv p p' :
  length argv = 6%nat -> nth 3 argv ""%string = "sbl_full_erase"%string ->
  serial_open_configure h (atoi (arg argv 2)) = Some p ->
  0 < arg_u32 (arg argv 5) <= arg_u32 (arg argv 4) ->
  main h argv = Some (0, Some p') ->
  let flash_size := arg_u32 (arg argv 4) in
  let page_size := arg_u32 (arg argv 5) in
  cmd_payloads CMD_SECTOR_ERASE (wlog p')
  = cmd_payloads CMD_SECTOR_ERASE (wlog p)
    ++ map be32 (pages (Z.to_nat ((flash_size - 1) / page_size)) 0 page_size).
Proof.
  intros Hl Hc Ho Hb Hm fs ps. rewrite (main_opened h argv p ltac:(lia) Ho), Hc in Hm.
  revert Hm. dispatch. rewrite Hl. cbn [Nat.eqb negb]. cbv zeta. unfold bind, ret.
  fold fs ps. fold fs ps in Hb.
  pose proof (arg_u32_range (arg argv 4)) as Hf. fold fs in Hf.
  rewrite (Z.mod_small (fs - ps)) by lia.
  destruct (full_erase_loop h _ 0 (fs - ps) ps p) as [r p1] eqn:Hr.
  intros Hm. injection Hm as -> ->.
  rewrite (full_erase_loop_success h _ (fs - ps) ps 0 p p' ltac:(lia) ltac:(lia)
             ltac:(lia) Hr).
  replace (fs - ps - 0 + ps - 1) with (fs - 1) by lia. reflexivity.
Qed.

(** [main ... sbl_send_data <b0> ...]: with more than 252 values, or a value
    whose [(unsigned)strtoul] exceeds 255, nothing is sent, the port is left
    as it was and the exit code is 1; otherwise exactly one SEND_DATA frame
    is sent, carrying every value reduced modulo 2^32. *)
Theorem main_send_data_one_frame h argv p :
  (5 <= length argv)%nat -> nth 3 argv ""%string = "sbl_send_data"%string ->
  serial_open_configure h (atoi (arg argv 2)) = Some p ->
  let args := map cbytes (skipn 4 argv) in
  exists rc p', main h argv = Some (rc, Some p') /\
    if (length argv - 4 <=? 252)%nat && forallb (fun a => arg_u32 a <=? 255) args
    then cmd_payloads CMD_SEND_DATA (wlog p')
         = cmd_payloads CMD_SEND_DATA (wlog p) ++ [map arg_u32 args]
    else rc = 1 /\ p' = p.
Proof.
  intros Hl Hc Ho args. rewrite (main_opened h argv p ltac:(lia) Ho), Hc.
  dispatch. cbv zeta.
  replace (length argv <? 5)%nat with false by (symmetry; apply Nat.ltb_ge; lia).
  fold args. rewrite send_data_bytes_spec.
  assert (Hla : length args = (length argv - 4)%nat)
    by (unfold args; rewrite length_map, length_skipn; reflexivity).
  destruct (Nat.leb_spec (length argv - 4) 252) as [Hs|Hs]; cbn [andb].
  - replace (252 <? length argv - 4)%nat with false by (symmetry; apply Nat.ltb_ge; lia).
    destruct (forallb _ args).
    + unfold bind.
      assert (E : cmd_payloads CMD_SEND_DATA (wlog (snd (sbl_send_data (map arg_u32 args) 1000 p)))
                  = cmd_payloads CMD_SEND_DATA (wlog p) ++ [map arg_u32 args]).
      { rewrite send_data_wlog, length_map, Hla.
        replace ((Z.of_nat (length argv - 4) =? 0) || (Z.of_nat (length argv - 4) >? 252))
          with false
          by (symmetry; apply orb_false_iff; split;
              [apply Z.eqb_neq | rewrite Z.gtb_ltb; apply Z.ltb_ge]; lia).
        apply send_cmd_same. rewrite length_map. lia. }
      destruct (sbl_send_data (map arg_u32 args) 1000 p) as [r p1]; cbn [snd] in E.
      exists (if negb (r =? 0) then 1 else 0), p1.
      split; [destruct (negb (r =? 0)); reflexivity | exact E].
    + exists 1, p. split; [reflexivity | split; reflexivity].
  - replace (252 <? length argv - 4)%nat with true by (symmetry; apply Nat.ltb_lt; lia).
    exists 1, p. split; [reflexivity | split; reflexivity].
Qed.

(** [main ... tx <b0> ...] is all or nothing.  If the buffer cannot be
    allocated, nothing is written and the exit code is 4; if one argument is
    not a byte accepted by [parse_byte], nothing is written and the exit code
    is 1; otherwise all the bytes (one per argument, each in 0..255) go out
    in one [serial_write_all] call, and when that write succeeds the exit
    code is 0. *)
Theorem main_tx_all_or_nothing h argv p :
  (5 <= length argv)%nat -> nth 3 argv ""%string = "tx"%string ->
  serial_open_configure h (atoi (arg argv 2)) = Some p ->
  if negb (malloc_ok h) then main h argv = Some (4, Some p)
  else match parse_bytes (map cbytes (skipn 4 argv)) with
  | None => main h argv = Some (1, Some p)
  | Some buf =>
      main h argv = Some (0, Some (mkPort (inp p) (wlog p ++ [buf]) (errno p)))
      /\ length buf = (length argv - 4)%nat /\ Forall (fun v => 0 <= v <= 255) buf
  end.
Proof.
  intros Hl Hc Ho. rewrite (main_opened h argv p ltac:(lia) Ho), Hc.
  dispatch.
  replace (length argv <? 5)%nat with false by (symmetry; apply Nat.ltb_ge; lia).
  destruct (malloc_ok h); cbn [negb]; [|reflexivity].
  destruct (parse_bytes (map cbytes (skipn 4 argv))) as [buf|] eqn:Hp; [|reflexivity].
  destruct (parse_bytes_some _ _ Hp) as [Hlb Hr].
  rewrite length_map, length_skipn in Hlb.
  split; [|split; assumption].
  unfold bind, serial_write_all. cbn [fst snd].
  replace (Z.of_nat (length buf) <? 0) with false by (symmetry; apply Z.ltb_ge; lia).
  reflexivity.
Qed.

Lemma main_erase_exit_ignores_status_witness :
  let p := fresh_port (ack_ev ++ status_ev COMMAND_RET_FLASH_FAIL) in
  let h := mkHost (fun _ => Some p) (fun _ => None) 0 true in
  let argv := ["cc1310-flasher"; "/dev/ttyACM0"; "115200"; "sbl_erase"; "0x1000"]%string in
  (length argv = 5%nat /\ nth 3 argv ""%string = "sbl_erase"%string
   /\ serial_open_configure h (atoi (arg argv 2)) = Some p) /\
  exists p',
    main h argv
    = Some (if fst (sbl_sector_erase (arg_u32 (arg argv 4)) 2000 p) =? 0 then 0 else 1, Some p')
    /\ cmd_payloads CMD_SECTOR_ERASE (wlog p')
       = cmd_payloads CMD_SECTOR_ERASE (wlog p) ++ [be32 (arg_u32 (arg argv 4))].
Proof.
  intros p h argv.
  assert (H1 : length argv = 5%nat) by reflexivity.
  assert (H2 : nth 3 argv ""%string = "sbl_erase"%string) by reflexivity.
  assert (H3 : serial_open_configure h (atoi (arg argv 2)) = Some p) by (vm_compute; reflexivity).
  split; [exact (conj H1 (conj H2 H3))|].
  exact (main_erase_exit_ignores_status h argv p H1 H2 H3).
Defined.

Lemma main_download_exit_ignores_status_witness :
  let p := fresh_port (ack_ev ++ status_ev COMMAND_RET_FLASH_FAIL) in
  let h := mkHost (fun _ => Some p) (fun _ => None) 0 true in
  let argv := ["cc1310-flasher"; "/dev/ttyACM0"; "115200"; "sbl_download"; "0x0"; "4096"]%string in
  (length argv = 6%nat /\ nth 3 argv ""%string = "sbl_download"%string
   /\ serial_open_configure h (atoi (arg argv 2)) = Some p) /\
  let addr := arg_u32 (arg argv 4) in
  let len := arg_u32 (arg argv 5) in
  exists p',
    main h argv = Some (if fst (sbl_download addr len 1000 p) =? 0 then 0 else 1, Some p')
    /\ cmd_payloads CMD_DOWNLOAD (wlog p')
       = cmd_payloads CMD_DOWNLOAD (wlog p) ++ [be32 addr ++ be32 len].
Proof.
  intros p h argv.
  assert (H1 : length argv = 6%nat) by reflexivity.
  assert (H2 : nth 3 argv ""%string = "sbl_download"%string) by reflexivity.
  assert (H3 : serial_open_configure h (atoi (arg argv 2)) = Some p) by (vm_compute; reflexivity).
  split; [exact (conj H1 (conj H2 H3))|].
  exact (main_download_exit_ignores_status h argv p H1 H2 H3).
Defined.

Lemma main_program_exit_zero_witness :
  let p := fresh_port [] in
  let h := mkHost (fun _ => Some p) (fun _ => None) 0 true in
  let argv := ["cc1310-flasher"; "/dev/ttyACM0"; "115200"; "sbl_program"; "fw.bin";
               "0x0"; "0x20000"; "0x1000"]%string in
  (length argv = 8%nat /\ nth 3 argv ""%string = "sbl_program"%string
   /\ serial_open_configure h (atoi (arg argv 2)) = Some p) /\
  if arg_u32 (arg argv 7) =? 0 then main h argv = None
  else exists p', main h argv = Some (0, Some p').
Proof.
  intros p h argv.
  assert (H1 : length argv = 8%nat) by reflexivity.
  assert (H2 : nth 3 argv ""%string = "sbl_program"%string) by reflexivity.
  assert (H3 : serial_open_configure h (atoi (arg argv 2)) = Some p) by (vm_compute; reflexivity).
  split; [exact (conj H1 (conj H2 H3))|].
  exact (main_program_exit_zero h argv p H1 H2 H3).
Defined.

Lemma main_full_erase_pages_witness :
  let p := fresh_port (device_script [COMMAND_RET_SUCCESS; COMMAND_RET_SUCCESS] 0) in
  let h := mkHost (fun _ => Some p) (fun _ => None) 0 true in
  let argv := ["cc1310-flasher"; "/dev/ttyACM0"; "115200"; "sbl_full_erase";
               "0x3000"; "0x1000"]%string in
  let p' := match main h argv with Some (_, Some q) => q | _ => p end in
  (length argv = 6%nat /\ nth 3 argv ""%string = "sbl_full_erase"%string
   /\ serial_open_configure h (atoi (arg argv 2)) = Some p
   /\ 0 < arg_u32 (arg argv 5) <= arg_u32 (arg argv 4)
   /\ main h argv = Some (0, Some p')) /\
  let flash_size := arg_u32 (arg argv 4) in
  let page_size := arg_u32 (arg argv 5) in
  cmd_payloads CMD_SECTOR_ERASE (wlog p')
  = cmd_payloads CMD_SECTOR_ERASE (wlog p)
    ++ map be32 (pages (Z.to_nat ((flash_size - 1) / page_size)) 0 page_size).
Proof.
  intros p h argv p'.
  assert (H1 : length argv = 6%nat) by reflexivity.
  assert (H2 : nth 3 argv ""%string = "sbl_full_erase"%string) by reflexivity.
  assert (H3 : serial_open_configure h (atoi (arg argv 2)) = Some p) by (vm_compute; reflexivity).
  assert (E4 : arg_u32 (arg argv 4) = 12288) by (vm_compute; reflexivity).
  assert (E5 : arg_u32 (arg argv 5) = 4096) by (vm_compute; reflexivity).
  assert (H4 : 0 < arg_u32 (arg argv 5) <= arg_u32 (arg argv 4)) by (rewrite E4, E5; lia).
  assert (H5 : main h argv = Some (0, Some p')) by (vm_compute; reflexivity).
  split; [exact (conj H1 (conj H2 (conj H3 (conj H4 H5))))|].
  exact (main_full_erase_pages h argv p p' H1 H2 H3 H4 H5).
Defined.

Lemma main_send_data_one_frame_witness :
  let p := fresh_port ack_ev in
  let h := mkHost (fun _ => Some p) (fun _ => None) 0 true in
  let argv := ["cc1310-flasher"; "/dev/ttyACM0"; "115200"; "sbl_send_data";
               "4294967296"; "0xff"]%string in
  ((5 <= length argv)%nat /\ nth 3 argv ""%string = "sbl_send_data"%string
   /\ serial_open_configure h (atoi (arg argv 2)) = Some p) /\
  let args := map cbytes (skipn 4 argv) in
  exists rc p', main h argv = Some (rc, Some p') /\
    if (length argv - 4 <=? 252)%nat && forallb (fun a => arg_u32 a <=? 255) args
    then cmd_payloads CMD_SEND_DATA (wlog p')
         = cmd_payloads CMD_SEND_DATA (wlog p) ++ [map arg_u32 args]
    else rc = 1 /\ p' = p.
Proof.
  intros p h argv.
  assert (H1 : (5 <= length argv)%nat) by (simpl; lia).
  assert (H2 : nth 3 argv ""%string = "sbl_send_data"%string) by reflexivity.
  assert (H3 : serial_open_configure h (atoi (arg argv 2)) = Some p) by (vm_compute; reflexivity).
  split; [exact (conj H1 (conj H2 H3))|].
  exact (main_send_data_one_frame h argv p H1 H2 H3).
Defined.

Lemma main_tx_all_or_nothing_witness :
  let p := fresh_port [] in
  let h := mkHost (fun _ => Some p) (fun _ => None) 0 true in
  let argv := ["cc1310-flasher"; "/dev/ttyACM0"; "115200"; "tx"; "0x01"; "16"]%string in
  ((5 <= length argv)%nat /\ nth 3 argv ""%string = "tx"%string
   /\ serial_open_configure h (atoi (arg argv 2)) = Some p) /\
  if negb (malloc_ok h) then main h argv = Some (4, Some p)
  else match parse_bytes (map cbytes (skipn 4 argv)) with
  | None => main h argv = Some (1, Some p)
  | Some buf =>
      main h argv = Some (0, Some (mkPort (inp p) (wlog p ++ [buf]) (errno p)))
      /\ length buf = (length argv - 4)%nat /\ Forall (fun v => 0 <= v <= 255) buf
  end.
Proof.
  intros p h argv.
  assert (H1 : (5 <= length argv)%nat) by (simpl; lia).
  assert (H2 : nth 3 argv ""%string = "tx"%string) by reflexivity.
  assert (H3 : serial_open_configure h (atoi (arg argv 2)) = Some p) by (vm_compute; reflexivity).
  split; [exact (conj H1 (conj H2 H3))|].
  exact (main_tx_all_or_nothing h argv p H1 H2 H3).
Defined.

